(** * bhph_crm: underwriting score, lead import and tag handlers

    A shallow embedding of [bhph_crm.py].  Python [float] values are IEEE
    binary64 numbers ([spec_float] at precision 53), Python [int] values
    are [Z], [str] values are [string], and the SQLAlchemy session is an
    explicit store threaded through the page handlers. *)

From Stdlib Require Import ZArith Bool List Lia.
From Stdlib Require Import Strings.Ascii Strings.String Numbers.DecimalString.
From Stdlib Require Import Floats.SpecFloat.
From Stdlib Require Import Sorting.Sorted.
Import ListNotations.

Open Scope string_scope.
Open Scope Z_scope.

(** ** Python floats *)

Module PyFloat.

Definition float := spec_float.

Definition prec : Z := 53.
Definition emax : Z := 1024.

(** [float(n)] for an integer that a double holds exactly. *)
Definition of_Z (n : Z) : float := binary_normalize prec emax n 0 false.

(** Comparison operators; every one of them is [False] on a NaN. *)
Definition le (x y : float) : bool := SFleb x y.
Definition lt (x y : float) : bool := SFltb x y.
Definition ge (x y : float) : bool := SFleb y x.
Definition gt (x y : float) : bool := SFltb y x.

Definition is_zero (x : float) : bool :=
  match x with S754_zero _ => true | _ => false end.

(** Outcome of an expression that can raise. *)
Inductive result (A : Type) : Type :=
| Ok (a : A)
| ZeroDivisionError.
Arguments Ok {A} a.
Arguments ZeroDivisionError {A}.

(** [x / y]: raises on a zero divisor of either sign, and is the
    correctly rounded quotient otherwise. *)
Definition truediv (x y : float) : result float :=
  if is_zero y then ZeroDivisionError else Ok (SFdiv prec emax x y).

(** The literals of the source. *)
Definition lit_1_0 : float := S754_finite false 4503599627370496 (-52).
Definition lit_0_20 : float := S754_finite false 7205759403792794 (-55).
Definition lit_0_25 : float := S754_finite false 4503599627370496 (-54).
Definition lit_0_30 : float := S754_finite false 5404319552844595 (-54).

(** Round a positive dyadic [m * 2^e] to the nearest integer, ties to
    even: the digits [format(x, '.0f')] prints. *)
Definition round_half_even (m : positive) (e : Z) : Z :=
  match e with
  | Zneg p =>
      let d := Z.pow_pos 2 p in
      let q := Z.pos m / d in
      let r := Z.pos m mod d in
      match 2 * r ?= d with
      | Lt => q
      | Gt => q + 1
      | Eq => if Z.even q then q else q + 1
      end
  | _ => Z.pos m * 2 ^ e
  end.

(** [str(n)] for an integer. *)
Definition str_of_Z (n : Z) : string :=
  NilZero.string_of_int (Z.to_int n).

Definition sign_str (s : bool) : string := if s then "-" else "".

(** [format(x, '.0%')]: the value is multiplied by 100 as a double and
    printed with no decimals, followed by a percent sign. *)
Definition format_pct0 (x : float) : string :=
  match SFmul prec emax x (of_Z 100) with
  | S754_nan => "nan%"
  | S754_infinity s => sign_str s ++ "inf%"
  | S754_zero s => sign_str s ++ "0%"
  | S754_finite s m e => sign_str s ++ str_of_Z (round_half_even m e) ++ "%"
  end.

End PyFloat.

Import PyFloat.

Definition bind {A B : Type} (r : result A) (k : A -> result B) : result B :=
  match r with
  | Ok a => k a
  | ZeroDivisionError => ZeroDivisionError
  end.

Notation "x <- r ;; k" := (bind r (fun x => k))
  (at level 61, r at next level, right associativity).

(** ** Python strings

    A [string] is read as a sequence of code points below 256. *)

Module PyStr.

(** [c.isspace()] *)
Definition isspace (c : ascii) : bool :=
  let n := N_of_ascii c in
  ((9 <=? n) && (n <=? 13) || (28 <=? n) && (n <=? 32)
   || (n =? 133) || (n =? 160))%N.

Fixpoint lstrip (s : string) : string :=
  match s with
  | String c s' => if isspace c then lstrip s' else s
  | EmptyString => EmptyString
  end.

Fixpoint rstrip (s : string) : string :=
  match s with
  | String c s' =>
      match rstrip s' with
      | EmptyString => if isspace c then EmptyString else String c EmptyString
      | r => String c r
      end
  | EmptyString => EmptyString
  end.

(** [s.strip()] *)
Definition strip (s : string) : string := rstrip (lstrip s).

(** [sep.join(l)] *)
Fixpoint join (sep : string) (l : list string) : string :=
  match l with
  | [] => ""
  | [x] => x
  | x :: rest => x ++ sep ++ join sep rest
  end.

(** Truth value of a [str]: false exactly on the empty string. *)
Definition truthy (s : string) : bool :=
  match s with EmptyString => false | _ => true end.

(** [a or b] on strings. *)
Definition or_else (a b : string) : string := if truthy a then a else b.

(** [x in l] for a list of strings. *)
Definition mem (x : string) (l : list string) : bool :=
  existsb (String.eqb x) l.

End PyStr.

Import PyStr.

(** ** Data model *)

Definition HOT_WARM_COLD : list string := ["Hot"; "Warm"; "Cold"].

(** A [None] primary key or timestamp is the attribute of an object that
    has not been inserted yet; [address2] is the one text column a
    constructor call of the source leaves unset. *)
Record Lead : Type := mkLead {
  lead_id : option Z;
  lead_created_at : option Z;
  first_name : string;
  last_name : string;
  phone : string;
  phone2 : string;
  email : string;
  address1 : string;
  address2 : option string;
  city : string;
  state : string;
  zip : string;
  source : string;
  status : string;
  assigned_to : string
}.

Definition full_name (l : Lead) : string :=
  strip (first_name l ++ " " ++ last_name l).

Record Tag : Type := mkTag {
  tag_id : option Z;
  tag_lead_id : option Z;
  name : string
}.

(** The four result fields hold the column defaults until
    [score_application] has run. *)
Record FinanceApplication : Type := mkApp {
  app_id : option Z;
  app_lead_id : Z;
  gross_monthly_income : float;
  net_monthly_income : float;
  job_time_months : Z;
  employer : option string;
  pay_frequency : string;
  residence_time_months : Z;
  rent_or_mortgage : float;
  other_monthly_debt : float;
  desired_payment : float;
  down_payment : float;
  has_repo : bool;
  has_bankruptcy : bool;
  first_time_buyer : bool;
  self_employed : bool;
  dl_on_file : bool;
  poi_on_file : bool;
  por_on_file : bool;
  references_on_file : bool;
  score : Z;
  risk_tier : string;
  decision : string;
  scoring_notes : string
}.

(** ** Underwriting / scoring logic *)

Definition compute_pti (net_income desired_payment : float) : result float :=
  if le net_income (of_Z 0) then Ok lit_1_0
  else truediv desired_payment net_income.

(** The running [score] and the [notes] list of [score_application]. *)
Definition acc : Type := (Z * list string)%type.

(** [score += d; notes.append(note)] *)
Definition bump (d : Z) (note : string) (st : acc) : acc :=
  (fst st + d, (snd st ++ [note])%list).

Definition income_rule (app : FinanceApplication) (st : acc) : acc :=
  if ge (net_monthly_income app) (of_Z 2500) then
    bump 15 "Net income strong (>= $2,500)." st
  else if ge (net_monthly_income app) (of_Z 2000) then
    bump 10 "Net income good (>= $2,000)." st
  else if ge (net_monthly_income app) (of_Z 1500) then
    bump 5 "Net income moderate (>= $1,500)." st
  else
    bump (-10) "Net income low (< $1,500)." st.

Definition pti_rule (pti : float) (st : acc) : acc :=
  if le pti lit_0_20 then
    bump 15 ("PTI excellent (" ++ format_pct0 pti ++ ").") st
  else if le pti lit_0_25 then
    bump 10 ("PTI good (" ++ format_pct0 pti ++ ").") st
  else if le pti lit_0_30 then
    bump 0 ("PTI borderline (" ++ format_pct0 pti ++ ").") st
  else
    bump (-15) ("PTI high (" ++ format_pct0 pti ++ ").") st.

Definition job_rule (app : FinanceApplication) (st : acc) : acc :=
  if job_time_months app >=? 24 then
    bump 10 "Job time strong (>= 24 mo)." st
  else if job_time_months app >=? 12 then
    bump 5 "Job time ok (>= 12 mo)." st
  else
    bump (-10) "Job time short (< 12 mo)." st.

Definition residence_rule (app : FinanceApplication) (st : acc) : acc :=
  if residence_time_months app >=? 24 then
    bump 8 "Residence time strong (>= 24 mo)." st
  else if residence_time_months app >=? 12 then
    bump 4 "Residence time ok (>= 12 mo)." st
  else
    bump (-6) "Residence time short (< 12 mo)." st.

Definition down_rule (app : FinanceApplication) (st : acc) : acc :=
  if ge (down_payment app) (of_Z 1500) then
    bump 10 "Down payment strong (>= $1,500)." st
  else if ge (down_payment app) (of_Z 999) then
    bump 6 "Down payment ok (>= $999)." st
  else if gt (down_payment app) (of_Z 0) then
    bump 2 "Down payment low (< $999)." st
  else
    bump (-8) "No down payment." st.

Definition flags_rule (app : FinanceApplication) (st : acc) : acc :=
  let st := if has_repo app then bump (-6) "Repo history flagged." st else st in
  let st := if has_bankruptcy app
            then bump (-6) "Bankruptcy history flagged." st else st in
  let st := if self_employed app
            then bump (-2) "Self-employed: verify income carefully." st
            else st in
  if first_time_buyer app then bump (-1) "First-time buyer." st else st.

(** The [missing] list, built by four conditional appends. *)
Definition missing_stips (app : FinanceApplication) : list string :=
  let missing := [] in
  let missing := if negb (dl_on_file app) then (missing ++ ["DL"])%list else missing in
  let missing := if negb (poi_on_file app) then (missing ++ ["POI"])%list else missing in
  let missing := if negb (por_on_file app) then (missing ++ ["POR"])%list else missing in
  if negb (references_on_file app) then (missing ++ ["Refs"])%list else missing.

Definition stips_rule (app : FinanceApplication) (st : acc) : acc :=
  let missing := missing_stips app in
  match missing with
  | [] => st
  | _ :: _ =>
      bump (- Z.min 12 (3 * Z.of_nat (List.length missing)))
           ("Missing stips: " ++ join ", " missing ++ ".") st
  end.

(** [max(0, min(100, score))] *)
Definition clamp (s : Z) : Z := Z.max 0 (Z.min 100 s).

Definition tier_decision (app : FinanceApplication) (s : Z)
  : string * string :=
  if s >=? 80 then ("A", "Approve")
  else if s >=? 65 then ("B", "Approve")
  else if s >=? 50 then ("C", "Review")
  else ("D", if lt (down_payment app) (of_Z 999) then "Counter" else "Decline").

(** The rules of [score_application] in source order, from the baseline
    to the missing-stips penalty: the running score and the notes just
    before the clamp. *)
Definition apply_rules (app : FinanceApplication) : result acc :=
  let st : acc := (50, []) in
  let st := income_rule app st in
  pti <- compute_pti (net_monthly_income app) (desired_payment app) ;;
  let st := pti_rule pti st in
  let st := job_rule app st in
  let st := residence_rule app st in
  let st := down_rule app st in
  let st := flags_rule app st in
  Ok (stips_rule app st).

(** Returns (score 0-100, risk_tier, decision, notes). *)
Definition score_application (app : FinanceApplication)
  : result (Z * string * string * string) :=
  st <- apply_rules app ;;
  let s := clamp (fst st) in
  let '(tier, dec) := tier_decision app s in
  Ok (s, tier, dec, join " " (snd st)).

(** ** The store and the page handlers *)

Record Db : Type := mkDb {
  leads : list Lead;
  tags : list Tag;
  apps : list FinanceApplication;
  next_lead_id : Z;
  next_tag_id : Z;
  next_app_id : Z
}.

(** What a handler shows: [st.success] or [st.error]. *)
Inductive ui_msg : Type :=
| Success (msg : string)
| Error (msg : string).

Definition set_status (l : Lead) (s : string) : Lead :=
  mkLead (lead_id l) (lead_created_at l) (first_name l) (last_name l)
         (phone l) (phone2 l) (email l) (address1 l) (address2 l) (city l)
         (state l) (zip l) (source l) s (assigned_to l).

(** [db.add(lead)] followed by the flush at commit: the row receives its
    primary key and its [created_at] default. *)
Definition db_add_lead (now : Z) (db : Db) (l : Lead) : Db * Lead :=
  let l' := mkLead (Some (next_lead_id db)) (Some now) (first_name l)
                   (last_name l) (phone l) (phone2 l) (email l) (address1 l)
                   (address2 l) (city l) (state l) (zip l) (source l)
                   (status l) (assigned_to l) in
  (mkDb (leads db ++ [l']) (tags db) (apps db) (next_lead_id db + 1)
        (next_tag_id db) (next_app_id db), l').

(** *** Import Leads *)

(** A cell of the uploaded table: missing ([pd.isna]), or a value given by
    its [str()] text. *)
Inductive cell : Type :=
| NA
| Val (text : string).

(** One data row: the cells by column name. *)
Definition row : Type := list (string * cell).

(** [row.get(key, default)] *)
Fixpoint row_get (r : row) (key : string) (default : string) : cell :=
  match r with
  | [] => Val default
  | (k, v) :: r' => if String.eqb k key then v else row_get r' key default
  end.

Definition safe_str (x : cell) : string :=
  match x with
  | NA => ""
  | Val text => strip text
  end.

(** The body of the import loop up to [db.add]. *)
Definition import_row (r : row) : Lead :=
  let lead :=
    mkLead None None
           (safe_str (row_get r "first_name" ""))
           (safe_str (row_get r "last_name" ""))
           (safe_str (row_get r "phone" ""))
           (safe_str (row_get r "phone2" ""))
           (safe_str (row_get r "email" ""))
           (safe_str (row_get r "address1" ""))
           (Some (safe_str (row_get r "address2" "")))
           (safe_str (row_get r "city" ""))
           (safe_str (row_get r "state" ""))
           (safe_str (row_get r "zip" ""))
           (safe_str (row_get r "source" ""))
           (or_else (safe_str (row_get r "status" "Warm")) "Warm")
           (safe_str (row_get r "assigned_to" "")) in
  if negb (mem (status lead) HOT_WARM_COLD) then set_status lead "Warm"
  else lead.

(** One turn of the import loop.  The rows of one import are stamped
    with the single clock reading [now]; the store reads its clock again
    for each inserted row, so only the keys, not the stamps, of imported
    rows are relied on. *)
Definition import_step (now : Z) (st : Db * Z) (r : row) : Db * Z :=
  let '(db, imported) := st in
  (fst (db_add_lead now db (import_row r)), imported + 1).

(** The "Import These Leads" button on a table that was read. *)
Definition import_leads (now : Z) (db : Db) (df : list row) : Db * ui_msg :=
  let '(db', imported) := fold_left (import_step now) df (db, 0) in
  (db', Success ("Imported " ++ str_of_Z imported ++ " leads.")).

(** *** Create Lead *)

Record LeadForm : Type := mkLeadForm {
  f_first_name : string;
  f_last_name : string;
  f_status : string;
  f_phone : string;
  f_phone2 : string;
  f_email : string;
  f_address1 : string;
  f_city : string;
  f_state : string;
  f_zipc : string;
  f_source : string;
  f_assigned_to : string
}.

(** The "Save Lead" button. *)
Definition create_lead (now : Z) (db : Db) (f : LeadForm) : Db * ui_msg :=
  if negb (truthy (f_first_name f)) && negb (truthy (f_last_name f)) then
    (db, Error "Add at least a first or last name.")
  else
    let lead :=
      mkLead None None (strip (f_first_name f)) (strip (f_last_name f))
             (strip (f_phone f)) (strip (f_phone2 f)) (strip (f_email f))
             (strip (f_address1 f)) None (strip (f_city f))
             (strip (f_state f)) (strip (f_zipc f)) (strip (f_source f))
             (f_status f) (strip (f_assigned_to f)) in
    let '(db', lead') := db_add_lead now db lead in
    (db', Success ("Created lead #" ++ str_of_Z (next_lead_id db) ++ ": "
                   ++ full_name lead')).

(** *** Lead Detail: tags *)

Definition owned_by (lid : Z) (t : Tag) : bool :=
  match tag_lead_id t with
  | Some l => l =? lid
  | None => false
  end.

(** [lead.tags] *)
Definition lead_tags (db : Db) (lid : Z) : list Tag :=
  filter (owned_by lid) (tags db).

(** [lead.tags.clear()]: the orphaned rows are deleted. *)
Definition clear_tags (db : Db) (lid : Z) : Db :=
  mkDb (leads db) (filter (fun t => negb (owned_by lid t)) (tags db))
       (apps db) (next_lead_id db) (next_tag_id db) (next_app_id db).

(** [lead.tags.append(Tag(name=t))] *)
Definition append_tag (lid : Z) (db : Db) (t : string) : Db :=
  mkDb (leads db)
       (tags db ++ [mkTag (Some (next_tag_id db)) (Some lid) t])
       (apps db) (next_lead_id db) (next_tag_id db + 1) (next_app_id db).

(** The "Update Tags" button for the lead with key [lid]. *)
Definition update_tags (db : Db) (lid : Z) (new_tags : list string)
  : Db * ui_msg :=
  let db := clear_tags db lid in
  let db := fold_left (append_tag lid) new_tags db in
  (db, Success "Tags updated.").

(** [{t.name for t in lead.tags}] in row order. *)
Definition tag_names (db : Db) (lid : Z) : list string :=
  map name (lead_tags db lid).

(** *** Lead Detail: finance applications *)

Record AppForm : Type := mkAppForm {
  f_net : float;
  f_gross : float;
  f_job_mo : Z;
  f_res_mo : Z;
  f_rent : float;
  f_debt : float;
  f_desired_payment : float;
  f_down : float;
  f_employer : string;
  f_pay_freq : string;
  f_has_repo : bool;
  f_has_bk : bool;
  f_first_time : bool;
  f_self_emp : bool;
  f_dl : bool;
  f_poi : bool;
  f_por : bool;
  f_refs : bool;
  f_run_score : bool
}.

Definition set_result (a : FinanceApplication)
  (r : Z * string * string * string) : FinanceApplication :=
  let '(sc, tier, dec, sc_notes) := r in
  mkApp (app_id a) (app_lead_id a) (gross_monthly_income a)
        (net_monthly_income a) (job_time_months a) (employer a)
        (pay_frequency a) (residence_time_months a) (rent_or_mortgage a)
        (other_monthly_debt a) (desired_payment a) (down_payment a)
        (has_repo a) (has_bankruptcy a) (first_time_buyer a)
        (self_employed a) (dl_on_file a) (poi_on_file a) (por_on_file a)
        (references_on_file a) sc tier dec sc_notes.

Definition db_add_app (db : Db) (a : FinanceApplication)
  : Db * FinanceApplication :=
  let a' :=
    mkApp (Some (next_app_id db)) (app_lead_id a) (gross_monthly_income a)
          (net_monthly_income a) (job_time_months a) (employer a)
          (pay_frequency a) (residence_time_months a) (rent_or_mortgage a)
          (other_monthly_debt a) (desired_payment a) (down_payment a)
          (has_repo a) (has_bankruptcy a) (first_time_buyer a)
          (self_employed a) (dl_on_file a) (poi_on_file a) (por_on_file a)
          (references_on_file a) (score a) (risk_tier a) (decision a)
          (scoring_notes a) in
  (mkDb (leads db) (tags db) (apps db ++ [a']) (next_lead_id db)
        (next_tag_id db) (next_app_id db + 1), a').

(** The "Save Finance Application" button for the lead with key [lid]. *)
Definition create_app (db : Db) (lid : Z) (f : AppForm)
  : result (Db * ui_msg) :=
  let app :=
    mkApp None lid (f_gross f) (f_net f) (f_job_mo f)
          (if truthy (strip (f_employer f)) then Some (strip (f_employer f))
           else None)
          (f_pay_freq f) (f_res_mo f) (f_rent f) (f_debt f)
          (f_desired_payment f) (f_down f) (f_has_repo f) (f_has_bk f)
          (f_first_time f) (f_self_emp f) (f_dl f) (f_poi f) (f_por f)
          (f_refs f) 0 "Unknown" "Review" "" in
  app <- (if f_run_score f
          then r <- score_application app ;; Ok (set_result app r)
          else Ok app) ;;
  let '(db', app') := db_add_app db app in
  Ok (db', Success ("Saved finance application #"
                    ++ str_of_Z (next_app_id db)
                    ++ " (Score: " ++ str_of_Z (score app')
                    ++ ", Tier: " ++ risk_tier app'
                    ++ ", Decision: " ++ decision app' ++ ")")).

(** ** Worked scenarios *)

Definition scenario1 : FinanceApplication :=
  mkApp None 1 (of_Z 2500) (of_Z 2000) 12 None "biweekly" 12 (of_Z 800)
        (of_Z 150) (of_Z 450) (of_Z 999) false false false false
        true true true true 0 "Unknown" "Review" "".

Definition scenario2 : FinanceApplication :=
  mkApp None 1 (of_Z 2500) (of_Z 1200) 6 None "biweekly" 6 (of_Z 800)
        (of_Z 150) (of_Z 500) (of_Z 0) true true false false
        false false false false 0 "Unknown" "Review" "".

Definition empty_db : Db := mkDb [] [] [] 1 1 1.

(** ** Specification-side definitions *)

(** The rows of the tier table. *)
Inductive tier_row : Type := RowA | RowB | RowC | RowD.

Definition in_range (r : tier_row) (s : Z) : Prop :=
  match r with
  | RowA => 80 <= s
  | RowB => 65 <= s <= 79
  | RowC => 50 <= s <= 64
  | RowD => s < 50
  end.

Definition row_tier (r : tier_row) : string :=
  match r with RowA => "A" | RowB => "B" | RowC => "C" | RowD => "D" end.

Definition row_decision (r : tier_row) (down : float) : string :=
  match r with
  | RowA => "Approve"
  | RowB => "Approve"
  | RowC => "Review"
  | RowD => if lt down (of_Z 999) then "Counter" else "Decline"
  end.

(** Number of verification flags that are false. *)
Definition count_missing (app : FinanceApplication) : Z :=
  Z.b2z (negb (dl_on_file app)) + Z.b2z (negb (poi_on_file app))
  + Z.b2z (negb (por_on_file app)) + Z.b2z (negb (references_on_file app)).

(** The application [a] with another net income and every other field
    unchanged. *)
Definition set_net_monthly_income (a : FinanceApplication) (net : float)
  : FinanceApplication :=
  mkApp (app_id a) (app_lead_id a) (gross_monthly_income a) net
        (job_time_months a) (employer a) (pay_frequency a)
        (residence_time_months a) (rent_or_mortgage a)
        (other_monthly_debt a) (desired_payment a) (down_payment a)
        (has_repo a) (has_bankruptcy a) (first_time_buyer a)
        (self_employed a) (dl_on_file a) (poi_on_file a) (por_on_file a)
        (references_on_file a) (score a) (risk_tier a) (decision a)
        (scoring_notes a).

(** Status coercion as the import contract words it: a status outside
    Hot/Warm/Cold becomes Warm. *)
Definition coerce_status (s : string) : string :=
  if mem s HOT_WARM_COLD then s else "Warm".

(** A lead without the two attributes the store fills in at insert. *)
Definition unkeyed (l : Lead) : Lead :=
  mkLead None None (first_name l) (last_name l) (phone l) (phone2 l)
         (email l) (address1 l) (address2 l) (city l) (state l) (zip l)
         (source l) (status l) (assigned_to l).

(** A data row with no name: one cell missing, the other only spaces. *)
Definition blank_row : row := [("first_name", NA); ("last_name", Val "  ")].

(** A data row whose status cell is padded with spaces. *)
Definition padded_row : row := [("first_name", Val "Ann"); ("status", Val " Hot ")].

(** ** Derived definitions for the scoring rules *)

(** What a rule adds to the running score, measured from zero. *)
Definition points (rule : acc -> acc) : Z := fst (rule (0, [])).

(** The notes a rule appends, measured from the empty list. *)
Definition rule_notes (rule : acc -> acc) : list string := snd (rule (0, [])).

(** A rule is additive when its effect on a running state is its effect on
    the empty state, shifted. *)
Definition additive (rule : acc -> acc) : Prop :=
  forall st : acc,
    rule st = (fst st + points rule, (snd st ++ rule_notes rule)%list).

(** The PTI rule on the ratio [compute_pti] returns for the application. *)
Definition pti_rule_of (app : FinanceApplication) (st : acc) : acc :=
  match compute_pti (net_monthly_income app) (desired_payment app) with
  | Ok pti => pti_rule pti st
  | ZeroDivisionError => st
  end.

(** The sum [score_application] clamps: the baseline and the seven
    contributions. *)
Definition running_total (app : FinanceApplication) : Z :=
  50 + points (income_rule app) + points (pti_rule_of app)
  + points (job_rule app) + points (residence_rule app)
  + points (down_rule app) + points (flags_rule app)
  + points (stips_rule app).

(** The application with other inputs for the rules that read integers or
    flags, every other field unchanged. *)
Definition with_tenure (a : FinanceApplication) (job res : Z)
  : FinanceApplication :=
  mkApp (app_id a) (app_lead_id a) (gross_monthly_income a)
        (net_monthly_income a) job (employer a) (pay_frequency a) res
        (rent_or_mortgage a) (other_monthly_debt a) (desired_payment a)
        (down_payment a) (has_repo a) (has_bankruptcy a)
        (first_time_buyer a) (self_employed a) (dl_on_file a)
        (poi_on_file a) (por_on_file a) (references_on_file a) (score a)
        (risk_tier a) (decision a) (scoring_notes a).

Definition with_flags (a : FinanceApplication)
  (repo bk ftb se dl poi por refs : bool) : FinanceApplication :=
  mkApp (app_id a) (app_lead_id a) (gross_monthly_income a)
        (net_monthly_income a) (job_time_months a) (employer a)
        (pay_frequency a) (residence_time_months a) (rent_or_mortgage a)
        (other_monthly_debt a) (desired_payment a) (down_payment a)
        repo bk ftb se dl poi por refs (score a) (risk_tier a) (decision a)
        (scoring_notes a).

(** The four verification items and the four red flags. *)
Inductive stip : Type := StipDL | StipPOI | StipPOR | StipRefs.

Inductive red_flag : Type := FlagRepo | FlagBankruptcy | FlagSelfEmployed
                           | FlagFirstTime.

Definition stip_on_file (k : stip) (a : FinanceApplication) : bool :=
  match k with
  | StipDL => dl_on_file a
  | StipPOI => poi_on_file a
  | StipPOR => por_on_file a
  | StipRefs => references_on_file a
  end.

Definition put_on_file (k : stip) (a : FinanceApplication)
  : FinanceApplication :=
  with_flags a (has_repo a) (has_bankruptcy a) (first_time_buyer a)
             (self_employed a)
             (match k with StipDL => true | _ => dl_on_file a end)
             (match k with StipPOI => true | _ => poi_on_file a end)
             (match k with StipPOR => true | _ => por_on_file a end)
             (match k with StipRefs => true | _ => references_on_file a end).

Definition flagged (k : red_flag) (a : FinanceApplication) : bool :=
  match k with
  | FlagRepo => has_repo a
  | FlagBankruptcy => has_bankruptcy a
  | FlagSelfEmployed => self_employed a
  | FlagFirstTime => first_time_buyer a
  end.

Definition raise_flag (k : red_flag) (a : FinanceApplication)
  : FinanceApplication :=
  with_flags a
             (match k with FlagRepo => true | _ => has_repo a end)
             (match k with FlagBankruptcy => true | _ => has_bankruptcy a end)
             (match k with FlagFirstTime => true | _ => first_time_buyer a end)
             (match k with FlagSelfEmployed => true | _ => self_employed a end)
             (dl_on_file a) (poi_on_file a) (por_on_file a)
             (references_on_file a).

(** The weight the source gives each red flag. *)
Definition flag_weight (k : red_flag) : Z :=
  match k with
  | FlagRepo => 6
  | FlagBankruptcy => 6
  | FlagSelfEmployed => 2
  | FlagFirstTime => 1
  end.

(** The score component of a result, for comparing two runs. *)
Definition score_of (r : result (Z * string * string * string)) : Z :=
  match r with
  | Ok (s, _, _, _) => s
  | ZeroDivisionError => 0
  end.

(** An application every rule rewards, and one every rule penalises. *)
Definition best_case : FinanceApplication :=
  mkApp None 1 (of_Z 4000) (of_Z 3000) 36 None "weekly" 36 (of_Z 700)
        (of_Z 0) (of_Z 300) (of_Z 2000) false false false false
        true true true true 0 "Unknown" "Review" "".

Definition worst_case : FinanceApplication :=
  mkApp None 1 (of_Z 0) (of_Z 0) 0 None "weekly" 0 (of_Z 0)
        (of_Z 0) (of_Z 0) (of_Z 0) true true true true
        false false false false 0 "Unknown" "Review" "".

(** ** Derived definitions for strings *)

(** No whitespace at the front. *)
Definition starts_clean (s : string) : Prop :=
  match s with
  | String c _ => isspace c = false
  | EmptyString => True
  end.

(** No whitespace at the back. *)
Fixpoint ends_clean (s : string) : Prop :=
  match s with
  | EmptyString => True
  | String c s' =>
      match s' with
      | EmptyString => isspace c = false
      | String _ _ => ends_clean s'
      end
  end.

(** A text is trimmed when [strip] leaves it as it is. *)
Definition trimmed (s : string) : Prop := strip s = s.

(** The text columns of a lead, [address2] read as blank when unset. *)
Definition text_columns (l : Lead) : list string :=
  [first_name l; last_name l; phone l; phone2 l; email l; address1 l;
   match address2 l with Some s => s | None => "" end;
   city l; state l; zip l; source l; status l; assigned_to l].

(** ** Derived definitions for the store *)

(** [l.index(x)]: the first position of [x], [None] for the ValueError of
    an absent value. *)
Fixpoint list_index (x : string) (l : list string) : option nat :=
  match l with
  | [] => None
  | y :: l' =>
      if String.eqb y x then Some 0%nat else option_map S (list_index x l')
  end.

(** The preselected entry of the status box on the Lead Detail page,
    [HOT_WARM_COLD.index(lead.status or "Warm")]. *)
Definition status_index (l : Lead) : option nat :=
  list_index (or_else (status l) "Warm") HOT_WARM_COLD.

(** [sum(1 for l in leads if l.status == s)] *)
Definition count_status (s : string) (ls : list Lead) : Z :=
  fold_right (fun l n => if String.eqb (status l) s then 1 + n else n) 0 ls.

(** The four Dashboard metrics: Total Leads, Hot, Warm, Cold. *)
Definition dashboard_metrics (db : Db) : Z * Z * Z * Z :=
  (Z.of_nat (List.length (leads db)), count_status "Hot" (leads db),
   count_status "Warm" (leads db), count_status "Cold" (leads db)).

(** Every stored lead has one of the three statuses. *)
Definition statuses_valid (db : Db) : Prop :=
  Forall (fun l => In (status l) HOT_WARM_COLD) (leads db).

(** Every stored lead has a primary key below the counter, and no key is
    used twice. *)
Definition keys_fresh (db : Db) : Prop :=
  Forall (fun l => exists i, lead_id l = Some i /\ i < next_lead_id db)
         (leads db)
  /\ NoDup (map lead_id (leads db)).

(** ** Tag selection on the Lead Detail page *)

Definition DEFAULT_TAGS : list string :=
  ["Need Driver's License"; "Need Proof of Income"; "Need Proof of Residence";
   "Need References"; "Need Down Payment"; "Need Insurance"; "Need Stips";
   "Bankruptcy"; "Repo"; "First-Time Buyer"; "Self-Employed"].

Fixpoint insert_sorted (x : string) (l : list string) : list string :=
  match l with
  | [] => [x]
  | y :: l' => if String.leb x y then x :: l else y :: insert_sorted x l'
  end.

Fixpoint isort (l : list string) : list string :=
  match l with
  | [] => []
  | x :: l' => insert_sorted x (isort l')
  end.

(** [sorted(set(l))]: the distinct elements in increasing code-point
    order. *)
Definition sorted_set (l : list string) : list string :=
  isort (nodup string_dec l).

(** [existing_tags = sorted({t.name for t in lead.tags})] *)
Definition existing_tags (db : Db) (lid : Z) : list string :=
  sorted_set (tag_names db lid).

(** The options of the tag box,
    [sorted(set(DEFAULT_TAGS + existing_tags))]. *)
Definition tag_options (db : Db) (lid : Z) : list string :=
  sorted_set (DEFAULT_TAGS ++ existing_tags db lid).

(** The "Tags" cell of [lead_to_row]. *)
Definition tags_cell (db : Db) (lid : Z) : string :=
  join ", " (sorted_set (tag_names db lid)).

(** Increasing order of strings, neighbour by neighbour. *)
Definition increasing (l : list string) : Prop :=
  Sorted (fun a b => String.leb a b = true) l.

(** ** Notes

    The [notes] table, kept beside the tables of [Db]. *)

Record Note : Type := mkNote {
  note_id : Z;
  note_lead_id : Z;
  note_created_at : Z;
  body : string;
  created_by : option string
}.

Record NoteTable : Type := mkNoteTable {
  notes : list Note;
  next_note_id : Z
}.

(** The "Save Note" button for the lead with key [lid]. *)
Definition add_note (now : Z) (nt : NoteTable) (lid : Z)
  (note_body created_by_input : string) : NoteTable * ui_msg :=
  if negb (truthy (strip note_body)) then
    (nt, Error "Note can't be empty.")
  else
    (mkNoteTable
       (notes nt
        ++ [mkNote (next_note_id nt) lid now (strip note_body)
                   (if truthy (strip created_by_input)
                    then Some (strip created_by_input) else None)])
       (next_note_id nt + 1),
     Success "Note saved.").

(** Every stored note has a body that is trimmed and not empty. *)
Definition bodies_filled (nt : NoteTable) : Prop :=
  Forall (fun n => truthy (body n) = true /\ trimmed (body n)) (notes nt).

(** ** Derived definitions for finance applications *)

(** The application with other values in the fields the rules never read:
    keys, gross income, employer, pay frequency, rent, other debt and the
    stored result. *)
Definition with_unscored (a : FinanceApplication) (id : option Z) (lid : Z)
  (gross rent debt : float) (emp : option string) (freq : string)
  (sc : Z) (tier dec sc_notes : string) : FinanceApplication :=
  mkApp id lid gross (net_monthly_income a) (job_time_months a) emp freq
        (residence_time_months a) rent debt (desired_payment a)
        (down_payment a) (has_repo a) (has_bankruptcy a)
        (first_time_buyer a) (self_employed a) (dl_on_file a)
        (poi_on_file a) (por_on_file a) (references_on_file a)
        sc tier dec sc_notes.

(** The thirteen fields [score_application] reads. *)
Definition scoring_inputs (a : FinanceApplication)
  : float * float * float * Z * Z * list bool :=
  (net_monthly_income a, desired_payment a, down_payment a,
   job_time_months a, residence_time_months a,
   [has_repo a; has_bankruptcy a; self_employed a; first_time_buyer a;
    dl_on_file a; poi_on_file a; por_on_file a; references_on_file a]).

(** [lead.apps] for the lead with key [lid]. *)
Definition lead_apps (db : Db) (lid : Z) : list FinanceApplication :=
  filter (fun a => app_lead_id a =? lid) (apps db).

(** The data-model constraints on the stored result of an application. *)
Definition result_valid (a : FinanceApplication) : Prop :=
  0 <= score a <= 100
  /\ In (risk_tier a) ["A"; "B"; "C"; "D"; "Unknown"]
  /\ In (decision a) ["Approve"; "Counter"; "Review"; "Decline"].

(** ** Derived definitions for the import *)

(** The column names the import reads. *)
Definition recognized_columns : list string :=
  ["first_name"; "last_name"; "phone"; "phone2"; "email"; "address1";
   "address2"; "city"; "state"; "zip"; "source"; "status"; "assigned_to"].

(** The keys [k], [k+1], ... handed out to [n] new rows. *)
Fixpoint keys_from (k : Z) (n : nat) : list (option Z) :=
  match n with
  | O => []
  | S n' => Some k :: keys_from (k + 1) n'
  end.

(** ** Note list of the Lead Detail page *)

(** [Note.lead_id == lead.id] *)
Definition notes_of (nt : NoteTable) (lid : Z) : list Note :=
  filter (fun n => note_lead_id n =? lid) (notes nt).

(** Ordering by [created_at] descending; notes with the same timestamp
    stay in table order. *)
Fixpoint insert_desc (n : Note) (l : list Note) : list Note :=
  match l with
  | [] => [n]
  | m :: l' =>
      if note_created_at n <? note_created_at m then m :: insert_desc n l'
      else n :: l
  end.

Fixpoint order_desc (l : list Note) : list Note :=
  match l with
  | [] => []
  | n :: l' => insert_desc n (order_desc l')
  end.

(** The notes the page lists: the query result cut by [notes[:20]]. *)
Definition recent_notes (nt : NoteTable) (lid : Z) : list Note :=
  firstn 20 (order_desc (notes_of nt lid)).

(** Newest first. *)
Definition newest_first (l : list Note) : Prop :=
  Sorted (fun a b => note_created_at b <= note_created_at a) l.

(** ** Floats: the facts the rules rely on *)

(** Mantissas are compared as integers. *)
Lemma pos_compare_Z (a b : positive) :
  Pos.compare_cont Eq a b = (Z.pos a ?= Z.pos b).
Proof. reflexivity. Qed.

(** Case analysis on comparisons of a float with positive finite
    constants: by class and sign, then by exponent and by mantissa. *)
Ltac float_cases x :=
  unfold lt, gt, ge, le, SFltb, SFleb;
  destruct x as [[]|[]| |[] m e]; cbn [SFcompare];
  try solve [intuition discriminate];
  rewrite ?pos_compare_Z;
  repeat match goal with
         | |- context [Z.compare ?a ?b] => destruct (Z.compare_spec a b)
         end;
  try (let Hp := fresh "Hprem" in
       intros Hp; try discriminate Hp; repeat split;
       solve [reflexivity | exfalso; lia]).

Lemma of_Z_0 : of_Z 0 = S754_zero false.
Proof. reflexivity. Qed.

Lemma of_Z_1500 : of_Z 1500 = S754_finite false 6597069766656000 (-42).
Proof. reflexivity. Qed.

Lemma of_Z_2000 : of_Z 2000 = S754_finite false 8796093022208000 (-42).
Proof. reflexivity. Qed.

Lemma of_Z_2500 : of_Z 2500 = S754_finite false 5497558138880000 (-41).
Proof. reflexivity. Qed.

(** The literals are the doubles nearest to the decimal they are written
    as. *)
Lemma literals_rounded :
  lit_1_0 = of_Z 1
  /\ lit_0_20 = SFdiv prec emax (of_Z 1) (of_Z 5)
  /\ lit_0_25 = SFdiv prec emax (of_Z 1) (of_Z 4)
  /\ lit_0_30 = SFdiv prec emax (of_Z 3) (of_Z 10).
Proof. repeat split; vm_compute; reflexivity. Qed.

(** The first worked scenario. *)
Example scenario1_approve :
  score_application scenario1
  = Ok (85, "A", "Approve",
        "Net income good (>= $2,000). PTI good (22%). Job time ok (>= 12 mo). Residence time ok (>= 12 mo). Down payment ok (>= $999).").
Proof. vm_compute. reflexivity. Qed.

(** Percent formatting: ties go to the even digit, the sign of a negative
    value that rounds to zero is kept, overflow prints as infinity. *)
Example format_pct0_samples :
  format_pct0 (SFdiv prec emax (of_Z 1) (of_Z 8)) = "12%"
  /\ format_pct0 (SFdiv prec emax (of_Z 135) (of_Z 1000)) = "14%"
  /\ format_pct0 (SFdiv prec emax (of_Z 500) (of_Z 1200)) = "42%"
  /\ format_pct0 (SFdiv prec emax (of_Z (-1)) (of_Z 1000)) = "-0%"
  /\ format_pct0 (of_Z (10 ^ 307)) = "inf%"
  /\ format_pct0 S754_nan = "nan%".
Proof. repeat split; vm_compute; reflexivity. Qed.

Example strip_samples :
  strip "  Hot " = "Hot" /\ strip "   " = "" /\ strip "a b" = "a b"
  /\ join ", " ["DL"; "POI"] = "DL, POI" /\ str_of_Z 12 = "12".
Proof. repeat split; reflexivity. Qed.

(** A zero of either sign passes the guard [net_income <= 0]. *)
Lemma zero_le_0 (x : float) : is_zero x = true -> le x (of_Z 0) = true.
Proof. destruct x as [[]| | |]; simpl; intro H; try discriminate H; reflexivity. Qed.

Lemma compute_pti_eq (n d : float) :
  compute_pti n d = Ok (if le n (of_Z 0) then lit_1_0 else SFdiv prec emax d n).
Proof.
  unfold compute_pti, truediv.
  destruct (le n (of_Z 0)) eqn:Hle; [reflexivity|].
  destruct (is_zero n) eqn:Hz; [|reflexivity].
  apply zero_le_0 in Hz. congruence.
Qed.

Lemma apply_rules_total (app : FinanceApplication) :
  exists st, apply_rules app = Ok st.
Proof.
  unfold apply_rules. rewrite compute_pti_eq. simpl. eauto.
Qed.

Lemma clamp_range (s : Z) : 0 <= clamp s <= 100.
Proof. unfold clamp. lia. Qed.

(** ** Theorems *)

(** C1: for every application, [score_application] returns, and the score
    it returns lies between 0 and 100. *)
Theorem score_application_bounded (app : FinanceApplication) :
  exists s tier dec notes,
    score_application app = Ok (s, tier, dec, notes) /\ 0 <= s <= 100.
Proof.
  unfold score_application.
  destruct (apply_rules_total app) as [st ->]. simpl.
  destruct (tier_decision app (clamp (fst st))) as [tier dec].
  exists (clamp (fst st)), tier, dec, (join " " (snd st)).
  split; [reflexivity | apply clamp_range].
Qed.

Lemma tier_decision_row (app : FinanceApplication) (s : Z) :
  exists r, in_range r s
            /\ tier_decision app s = (row_tier r, row_decision r (down_payment app)).
Proof.
  unfold tier_decision.
  destruct (s >=? 80) eqn:H80; [exists RowA; simpl; split; [lia | reflexivity]|].
  destruct (s >=? 65) eqn:H65; [exists RowB; simpl; split; [lia | reflexivity]|].
  destruct (s >=? 50) eqn:H50; [exists RowC; simpl; split; [lia | reflexivity]|].
  exists RowD; simpl; split; [lia | reflexivity].
Qed.

Lemma score_application_row (app : FinanceApplication) :
  exists s notes r,
    score_application app
    = Ok (s, row_tier r, row_decision r (down_payment app), notes)
    /\ in_range r s /\ 0 <= s <= 100.
Proof.
  unfold score_application.
  destruct (apply_rules_total app) as [st ->]. simpl.
  destruct (tier_decision_row app (clamp (fst st))) as [r [Hr ->]].
  exists (clamp (fst st)), (join " " (snd st)), r.
  repeat split; try assumption; apply clamp_range.
Qed.

(** C2: the tier and the decision returned by [score_application] are
    read off the table row that contains the clamped score (and, in row D,
    off the down payment), and every integer score lies in exactly one
    row. *)
Theorem tier_decision_table :
  (forall app : FinanceApplication,
      exists s notes r,
        score_application app
        = Ok (s, row_tier r, row_decision r (down_payment app), notes)
        /\ in_range r s /\ 0 <= s <= 100)
  /\ (forall s : Z, exists r, in_range r s /\ forall r', in_range r' s -> r' = r).
Proof.
  split; [exact score_application_row|].
  intro s.
  assert (80 <= s \/ 65 <= s <= 79 \/ 50 <= s <= 64 \/ s < 50) as Hs by lia.
  destruct Hs as [H | [H | [H | H]]];
    [exists RowA | exists RowB | exists RowC | exists RowD];
    (split; [exact H | intros [] H'; simpl in H'; solve [reflexivity | lia]]).
Qed.

(** C3: [compute_pti] never raises; it returns 1.0 when [net_income <= 0]
    and the quotient [desired_payment / net_income] otherwise, and
    [compute_pti(1000, 250)] is 0.25. *)
Theorem compute_pti_guarded :
  (forall net_income desired_payment : float,
      compute_pti net_income desired_payment
      = Ok (if le net_income (of_Z 0) then lit_1_0
            else SFdiv prec emax desired_payment net_income))
  /\ (forall net_income : float,
         is_zero net_income = true -> le net_income (of_Z 0) = true)
  /\ compute_pti (of_Z 1000) (of_Z 250) = Ok lit_0_25.
Proof.
  split; [exact compute_pti_eq | split; [exact zero_le_0 | reflexivity]].
Qed.

(** C4: the second worked scenario (net 1200, payment 500, 6 months at the
    job and at the residence, no down payment, repo and bankruptcy, nothing
    on file) runs to a total of -23, which is clamped to score 0, tier D,
    decision Counter; the fields the rules do not read are arbitrary. *)
Theorem scenario2_counter
  (id : option Z) (lid : Z) (gross rent debt : float) (emp : option string)
  (freq : string) (sc : Z) (tier dec notes : string) :
  let app :=
    mkApp id lid gross (of_Z 1200) 6 emp freq 6 rent debt (of_Z 500) (of_Z 0)
          true true false false false false false false sc tier dec notes in
  (exists l, apply_rules app = Ok (-23, l))
  /\ exists explanation,
      score_application app = Ok (0, "D", "Counter", explanation).
Proof.
  split; eexists; vm_compute; reflexivity.
Qed.

(** C5: the missing-stips rule is the last rule before the clamp; on any
    running state it lowers the score by exactly
    [min(12, 3 * count_missing)]; it appends one note that lists the
    missing items when some flag is false and appends nothing otherwise;
    an item is named in the list exactly when its flag is false. *)
Theorem stips_rule_penalty (app : FinanceApplication) :
  (exists before : acc, apply_rules app = Ok (stips_rule app before))
  /\ (forall st : acc,
         fst (stips_rule app st) = fst st - Z.min 12 (3 * count_missing app)
         /\ snd (stips_rule app st)
            = List.app (snd st)
                (if 0 <? count_missing app
                 then ["Missing stips: " ++ join ", " (missing_stips app) ++ "."]
                 else []))
  /\ (In "DL" (missing_stips app) <-> dl_on_file app = false)
  /\ (In "POI" (missing_stips app) <-> poi_on_file app = false)
  /\ (In "POR" (missing_stips app) <-> por_on_file app = false)
  /\ (In "Refs" (missing_stips app) <-> references_on_file app = false)
  /\ Z.of_nat (List.length (missing_stips app)) = count_missing app.
Proof.
  split.
  { unfold apply_rules. rewrite compute_pti_eq. cbn [bind].
    eexists. reflexivity. }
  unfold stips_rule, missing_stips, count_missing, bump.
  destruct (dl_on_file app), (poi_on_file app), (por_on_file app),
    (references_on_file app); simpl;
    repeat split; try reflexivity; try lia;
    try (rewrite app_nil_r; reflexivity);
    try (intro H; repeat (destruct H as [H | H]; try discriminate H);
         solve [reflexivity | contradiction]);
    try (intro H; solve [discriminate H | intuition]).
Qed.

Lemma below_1500_branches (x : float) :
  lt x (of_Z 1500) = true ->
  ge x (of_Z 2500) = false /\ ge x (of_Z 2000) = false
  /\ ge x (of_Z 1500) = false.
Proof.
  rewrite of_Z_1500, of_Z_2000, of_Z_2500. float_cases x.
Qed.

Lemma above_2500_branch (x : float) :
  gt x (of_Z 2500) = true -> ge x (of_Z 2500) = true.
Proof.
  rewrite of_Z_2500. float_cases x.
Qed.

(** C6: if an application has a net income below 1500 and a second one
    differs from it only in a net income above 2500, then on any running
    state the income rule adds -10 for the first and +15 for the second, so
    the contribution of the second is not less. *)
Theorem income_rule_monotone
  (app : FinanceApplication) (net' : float) (st : acc) :
  lt (net_monthly_income app) (of_Z 1500) = true ->
  gt net' (of_Z 2500) = true ->
  let app' := set_net_monthly_income app net' in
  fst (income_rule app st) - fst st = -10
  /\ fst (income_rule app' st) - fst st = 15
  /\ fst (income_rule app st) - fst st <= fst (income_rule app' st) - fst st.
Proof.
  intros Hlow Hhigh app'.
  apply below_1500_branches in Hlow. destruct Hlow as [H1 [H2 H3]].
  apply above_2500_branch in Hhigh.
  unfold income_rule, app'. simpl net_monthly_income.
  rewrite H1, H2, H3, Hhigh. unfold bump. simpl. lia.
Qed.

(** The income rule on the second scenario, and on the same application
    with a net income of 3000. *)
Lemma income_rule_monotone_witness :
  let app := scenario2 in
  let net' := of_Z 3000 in
  lt (net_monthly_income app) (of_Z 1500) = true
  /\ gt net' (of_Z 2500) = true
  /\ fst (income_rule app (50, [])) - 50 = -10
  /\ fst (income_rule (set_net_monthly_income app net') (50, [])) - 50 = 15.
Proof.
  assert (Hlow : lt (net_monthly_income scenario2) (of_Z 1500) = true)
    by reflexivity.
  assert (Hhigh : gt (of_Z 3000) (of_Z 2500) = true) by reflexivity.
  pose proof (income_rule_monotone scenario2 (of_Z 3000) (50, []) Hlow Hhigh)
    as [H1 [H2 _]].
  repeat split; assumption.
Defined.

(** ** Import *)

Lemma mem_In (x : string) (l : list string) : mem x l = true <-> In x l.
Proof.
  unfold mem. rewrite existsb_exists. split.
  - intros [y [Hy Heq]]. apply String.eqb_eq in Heq. subst. exact Hy.
  - intro H. exists x. split; [exact H | apply String.eqb_refl].
Qed.

Lemma coerce_status_valid (s : string) : In (coerce_status s) HOT_WARM_COLD.
Proof.
  unfold coerce_status. destruct (mem s HOT_WARM_COLD) eqn:Hm.
  - apply mem_In. exact Hm.
  - simpl. auto.
Qed.

Lemma import_row_status (r : row) :
  status (import_row r) = coerce_status (safe_str (row_get r "status" "Warm")).
Proof.
  unfold import_row, coerce_status. cbn [status].
  destruct (safe_str (row_get r "status" "Warm")) as [|c s] eqn:Hs.
  - reflexivity.
  - cbn [or_else truthy].
    destruct (mem (String c s) HOT_WARM_COLD); reflexivity.
Qed.

Lemma import_row_unkeyed (r : row) : unkeyed (import_row r) = import_row r.
Proof.
  unfold import_row.
  match goal with |- context [if ?b then _ else _] => destruct b end;
    reflexivity.
Qed.

Lemma import_fold (now : Z) (df : list row) :
  forall (db : Db) (n : Z),
    map unkeyed (leads (fst (fold_left (import_step now) df (db, n))))
    = (map unkeyed (leads db) ++ map import_row df)%list
    /\ snd (fold_left (import_step now) df (db, n)) = n + Z.of_nat (List.length df).
Proof.
  induction df as [|r df IH]; intros db n.
  - simpl. rewrite app_nil_r. split; [reflexivity | lia].
  - cbn [fold_left].
    change (import_step now (db, n) r)
      with (fst (db_add_lead now db (import_row r)), n + 1).
    destruct (IH (fst (db_add_lead now db (import_row r))) (n + 1))
      as [IH1 IH2].
    rewrite IH1, IH2. split.
    + cbn [db_add_lead fst leads].
      rewrite map_app, <- app_assoc. cbn [map List.app].
      do 2 f_equal. apply import_row_unkeyed.
    + cbn [List.length]. lia.
Qed.

Lemma import_leads_rows (now : Z) (db : Db) (df : list row) :
  map unkeyed (leads (fst (import_leads now db df)))
  = (map unkeyed (leads db) ++ map import_row df)%list
  /\ snd (import_leads now db df)
     = Success ("Imported " ++ str_of_Z (Z.of_nat (List.length df)) ++ " leads.").
Proof.
  unfold import_leads.
  destruct (import_fold now df db 0) as [H1 H2].
  destruct (fold_left (import_step now) df (db, 0)) as [db' n].
  cbn [fst snd] in *. subst n. split; [exact H1 | reflexivity].
Qed.

Lemma map_status_unkeyed (l : list Lead) :
  map status (map unkeyed l) = map status l.
Proof. rewrite map_map. apply map_ext. reflexivity. Qed.

(** C7, as the code has it: an import appends one lead per data row; the
    stored status of a row is its status cell after [safe_str] (missing
    cell or column read as blank, surrounding whitespace removed) when that
    text is Hot, Warm or Cold, and Warm otherwise.  So every stored status
    is one of the three, and "Unknown", a blank cell, a missing cell and a
    missing column all give Warm. *)
Theorem import_status_coerced (now : Z) (db : Db) (df : list row) :
  map status (leads (fst (import_leads now db df)))
  = (map status (leads db)
     ++ map (fun r => coerce_status (safe_str (row_get r "status" "Warm"))) df)%list
  /\ (forall r : row,
         In (coerce_status (safe_str (row_get r "status" "Warm"))) HOT_WARM_COLD)
  /\ (forall s : string,
         coerce_status s = if mem s HOT_WARM_COLD then s else "Warm")
  /\ coerce_status (safe_str (Val "Unknown")) = "Warm"
  /\ coerce_status (safe_str (Val "")) = "Warm"
  /\ coerce_status (safe_str NA) = "Warm"
  /\ coerce_status (safe_str (row_get [] "status" "Warm")) = "Warm".
Proof.
  split; [|split; [|repeat split]].
  - destruct (import_leads_rows now db df) as [H _].
    apply (f_equal (map status)) in H.
    rewrite map_app, !map_status_unkeyed, map_map in H.
    rewrite H. f_equal. apply map_ext. exact import_row_status.
  - intro r. apply coerce_status_valid.
Qed.

(** C7 as stated fails: a status cell that is not itself one of Hot, Warm,
    Cold but trims to one of them is stored as the trimmed text, not as
    Warm. *)
Lemma import_status_padded_not_warm :
  ~ (forall (now : Z) (db : Db) (r : row) (v : string),
        row_get r "status" "Warm" = Val v ->
        ~ In v HOT_WARM_COLD ->
        map status (leads (fst (import_leads now db [r])))
        = (map status (leads db) ++ ["Warm"])%list).
Proof.
  intro H.
  specialize (H 0 empty_db padded_row " Hot " eq_refl).
  assert (Hout : ~ In " Hot " HOT_WARM_COLD).
  { simpl. intros [E | [E | [E | []]]]; discriminate E. }
  specialize (H Hout). vm_compute in H. discriminate H.
Qed.

(** The import stores one lead per data row with no check on the names
    (the rows stored are exactly the rows read, a nameless row included),
    while "Save Lead" with both raw name fields empty reports an error and
    leaves the store as it was; in every other case it stores one lead. *)
Lemma import_unvalidated_create_validated :
  (forall (now : Z) (db : Db) (df : list row),
      map unkeyed (leads (fst (import_leads now db df)))
      = (map unkeyed (leads db) ++ map import_row df)%list
      /\ List.length (leads (fst (import_leads now db df)))
         = (List.length (leads db) + List.length df)%nat
      /\ snd (import_leads now db df)
         = Success ("Imported " ++ str_of_Z (Z.of_nat (List.length df))
                    ++ " leads."))
  /\ (first_name (import_row blank_row) = ""
      /\ last_name (import_row blank_row) = ""
      /\ map full_name (leads (fst (import_leads 0 empty_db [blank_row]))) = [""])
  /\ (forall (now : Z) (db : Db)
             (st ph ph2 em a1 ci sta zi so asg : string),
         create_lead now db (mkLeadForm "" "" st ph ph2 em a1 ci sta zi so asg)
         = (db, Error "Add at least a first or last name."))
  /\ (forall (now : Z) (db : Db) (f : LeadForm),
         if negb (truthy (f_first_name f)) && negb (truthy (f_last_name f))
         then create_lead now db f
              = (db, Error "Add at least a first or last name.")
         else List.length (leads (fst (create_lead now db f)))
              = S (List.length (leads db))).
Proof.
  split; [|split; [|split]].
  - intros now db df.
    destruct (import_leads_rows now db df) as [H1 H2].
    repeat split; try assumption.
    apply (f_equal (@List.length Lead)) in H1.
    rewrite length_app, !length_map in H1. exact H1.
  - repeat split; reflexivity.
  - intros. reflexivity.
  - intros now db f. unfold create_lead.
    destruct (negb (truthy (f_first_name f)) && negb (truthy (f_last_name f))).
    + reflexivity.
    + cbn [db_add_lead fst leads]. rewrite length_app. cbn [List.length]. lia.
Qed.

(** C10: the check of "Save Lead" misses a name that is only whitespace.
    With an empty first name and a last name of two spaces the form is not
    rejected: one lead is stored, its two names are empty (the same
    content as the nameless import row), and the success message carries
    an empty display name. *)
Theorem create_lead_blank_names_stored
  (now : Z) (db : Db) (st ph ph2 em a1 ci sta zi so asg : string) :
  let f := mkLeadForm "" "  " st ph ph2 em a1 ci sta zi so asg in
  exists l,
    create_lead now db f
    = (mkDb (leads db ++ [l]) (tags db) (apps db) (next_lead_id db + 1)
            (next_tag_id db) (next_app_id db),
       Success ("Created lead #" ++ str_of_Z (next_lead_id db) ++ ": "))
    /\ first_name l = "" /\ last_name l = ""
    /\ first_name l = first_name (import_row blank_row)
    /\ last_name l = last_name (import_row blank_row)
    /\ create_lead now db f <> (db, Error "Add at least a first or last name.")
    /\ List.length (leads (fst (create_lead now db f)))
       = S (List.length (leads db)).
Proof.
  intro f. eexists.
  assert (Heq : create_lead now db f
                = (mkDb (leads db ++ [_]) (tags db) (apps db)
                        (next_lead_id db + 1) (next_tag_id db)
                        (next_app_id db),
                   Success ("Created lead #" ++ str_of_Z (next_lead_id db)
                            ++ ": "))) by reflexivity.
  split; [exact Heq|].
  repeat (split; [reflexivity|]).
  split.
  - rewrite Heq. intro H. discriminate H.
  - rewrite Heq. cbn [fst leads]. rewrite length_app. cbn [List.length]. lia.
Qed.

(** ** Tags *)

Lemma lead_tags_clear (db : Db) (lid : Z) : lead_tags (clear_tags db lid) lid = [].
Proof.
  unfold lead_tags, clear_tags. cbn [tags].
  induction (tags db) as [|t l IH]; [reflexivity|].
  cbn [filter]. destruct (owned_by lid t) eqn:Ho; cbn [negb filter].
  - exact IH.
  - rewrite Ho. exact IH.
Qed.

Lemma tag_names_append (lid : Z) (ts : list string) :
  forall db : Db,
    tag_names (fold_left (append_tag lid) ts db) lid
    = (tag_names db lid ++ ts)%list.
Proof.
  unfold tag_names, lead_tags.
  induction ts as [|t ts IH]; intro db.
  - simpl. rewrite app_nil_r. reflexivity.
  - cbn [fold_left]. rewrite IH. unfold append_tag. cbn [tags].
    rewrite filter_app, map_app, <- app_assoc.
    cbn [filter owned_by tag_lead_id]. rewrite Z.eqb_refl. reflexivity.
Qed.

Lemma update_tags_names (db : Db) (lid : Z) (ts : list string) :
  tag_names (fst (update_tags db lid ts)) lid = ts.
Proof.
  unfold update_tags. cbn [fst]. rewrite tag_names_append.
  unfold tag_names. rewrite lead_tags_clear. reflexivity.
Qed.

(** C8: after "Update Tags" with a selection, the lead's tag names are the
    selection; pressing it again with the same selection leaves the same
    tag names, and they are free of duplicates when the selection is. *)
Theorem update_tags_idempotent (db : Db) (lid : Z) (new_tags : list string) :
  NoDup new_tags ->
  let db1 := fst (update_tags db lid new_tags) in
  let db2 := fst (update_tags db1 lid new_tags) in
  tag_names db1 lid = new_tags
  /\ tag_names db2 lid = tag_names db1 lid
  /\ NoDup (tag_names db2 lid).
Proof.
  intros Hnd db1 db2. unfold db2, db1.
  rewrite !update_tags_names. auto.
Qed.

(** Two presses with the same selection on a lead that held duplicate
    tags. *)
Lemma update_tags_idempotent_witness :
  let sel := ["Need Insurance"; "Repo"] in
  let db0 := fst (update_tags empty_db 7 ["Repo"; "Repo"; "Bankruptcy"]) in
  let db1 := fst (update_tags db0 7 sel) in
  let db2 := fst (update_tags db1 7 sel) in
  NoDup sel /\ tag_names db1 7 = sel /\ tag_names db2 7 = tag_names db1 7
  /\ NoDup (tag_names db2 7).
Proof.
  assert (Hnd : NoDup ["Need Insurance"; "Repo"]).
  { repeat constructor; simpl; intuition discriminate. }
  split; [exact Hnd|].
  exact (update_tags_idempotent
           (fst (update_tags empty_db 7 ["Repo"; "Repo"; "Bankruptcy"]))
           7 ["Need Insurance"; "Repo"] Hnd).
Defined.

(** ** Finance applications *)

(** C9: [score_application] always returns one of the tiers A, B, C, D
    (never "Unknown") and one of the four decisions; a stored application
    has tier "Unknown" only when it was saved without scoring, and then it
    carries the defaults (score 0, decision "Review", no notes). *)
Theorem score_never_unknown :
  (forall app : FinanceApplication,
      exists s tier dec notes,
        score_application app = Ok (s, tier, dec, notes)
        /\ In tier ["A"; "B"; "C"; "D"]
        /\ tier <> "Unknown"
        /\ In dec ["Approve"; "Counter"; "Review"; "Decline"])
  /\ (forall (db : Db) (lid : Z) (f : AppForm),
         exists db' msg a,
           create_app db lid f = Ok (db', msg)
           /\ apps db' = (apps db ++ [a])%list
           /\ if f_run_score f
              then In (risk_tier a) ["A"; "B"; "C"; "D"]
                   /\ risk_tier a <> "Unknown"
              else risk_tier a = "Unknown" /\ decision a = "Review"
                   /\ score a = 0 /\ scoring_notes a = "").
Proof.
  assert (Hscore : forall app : FinanceApplication,
             exists s tier dec notes,
               score_application app = Ok (s, tier, dec, notes)
               /\ In tier ["A"; "B"; "C"; "D"]
               /\ tier <> "Unknown"
               /\ In dec ["Approve"; "Counter"; "Review"; "Decline"]).
  { intro app.
    destruct (score_application_row app) as [s [notes [r [Heq _]]]].
    exists s, (row_tier r), (row_decision r (down_payment app)), notes.
    split; [exact Heq|].
    destruct r; cbn [row_tier row_decision];
      try destruct (lt (down_payment app) (of_Z 999));
      repeat split; simpl; auto 6; discriminate. }
  split; [exact Hscore|].
  intros db lid f. unfold create_app.
  destruct (f_run_score f) eqn:Hrun.
  - match goal with
    | |- context [score_application ?a] =>
        destruct (Hscore a) as [s [tier [dec [notes [Heq [Hin [Hne _]]]]]]];
        rewrite Heq
    end.
    cbn [bind set_result db_add_app].
    eexists _, _, _. split; [reflexivity|]. cbn [apps risk_tier].
    split; [reflexivity|]. split; assumption.
  - cbn [bind db_add_app].
    eexists _, _, _. split; [reflexivity|]. cbn [apps].
    split; [reflexivity|]. repeat split.
Qed.

(** ** The rules are additive *)

Lemma bump_fst (d : Z) (note : string) (st : acc) :
  fst (bump d note st) = fst st + d.
Proof. reflexivity. Qed.

Lemma bump_snd (d : Z) (note : string) (st : acc) :
  snd (bump d note st) = (snd st ++ [note])%list.
Proof. reflexivity. Qed.

Lemma additive_id : additive (fun st => st).
Proof.
  intros [s n]. unfold points, rule_notes. cbn [fst snd].
  rewrite Z.add_0_r, app_nil_r. reflexivity.
Qed.

Lemma additive_bump (d : Z) (note : string) : additive (bump d note).
Proof. intros [s n]. reflexivity. Qed.

Lemma additive_compose (f g : acc -> acc) :
  additive f -> additive g -> additive (fun st => g (f st)).
Proof.
  intros Hf Hg st. unfold points, rule_notes.
  rewrite (Hf st), (Hf (0, [])), !Hg. cbn [fst snd].
  f_equal; [lia | rewrite app_assoc; reflexivity].
Qed.

Lemma additive_if (b : bool) (f g : acc -> acc) :
  additive f -> additive g -> additive (fun st => if b then f st else g st).
Proof. intros Hf Hg. destruct b; assumption. Qed.

Lemma income_rule_additive (app : FinanceApplication) :
  additive (income_rule app).
Proof.
  unfold income_rule.
  repeat (apply additive_if; [apply additive_bump|]). apply additive_bump.
Qed.

Lemma pti_rule_additive (pti : float) : additive (pti_rule pti).
Proof.
  unfold pti_rule.
  repeat (apply additive_if; [apply additive_bump|]). apply additive_bump.
Qed.

Lemma pti_rule_of_additive (app : FinanceApplication) :
  additive (pti_rule_of app).
Proof.
  unfold pti_rule_of. rewrite compute_pti_eq. apply pti_rule_additive.
Qed.

Lemma job_rule_additive (app : FinanceApplication) : additive (job_rule app).
Proof.
  unfold job_rule.
  repeat (apply additive_if; [apply additive_bump|]). apply additive_bump.
Qed.

Lemma residence_rule_additive (app : FinanceApplication) :
  additive (residence_rule app).
Proof.
  unfold residence_rule.
  repeat (apply additive_if; [apply additive_bump|]). apply additive_bump.
Qed.

Lemma down_rule_additive (app : FinanceApplication) :
  additive (down_rule app).
Proof.
  unfold down_rule.
  repeat (apply additive_if; [apply additive_bump|]). apply additive_bump.
Qed.

Lemma flags_rule_additive (app : FinanceApplication) :
  additive (flags_rule app).
Proof.
  unfold flags_rule.
  destruct (has_repo app), (has_bankruptcy app), (self_employed app),
    (first_time_buyer app); intros [s n]; unfold points, rule_notes, bump;
    cbn [fst snd]; f_equal; try lia;
    rewrite <- ?app_assoc; try reflexivity; rewrite app_nil_r; reflexivity.
Qed.

Lemma stips_rule_additive (app : FinanceApplication) :
  additive (stips_rule app).
Proof.
  unfold stips_rule.
  destruct (missing_stips app); [apply additive_id | apply additive_bump].
Qed.

Lemma stips_rule_points (app : FinanceApplication) :
  points (stips_rule app) = - Z.min 12 (3 * count_missing app)
  /\ points (stips_rule app) = - 3 * count_missing app.
Proof.
  unfold points, stips_rule, missing_stips, count_missing.
  destruct (dl_on_file app), (poi_on_file app), (por_on_file app),
    (references_on_file app); split; reflexivity.
Qed.

Lemma flags_rule_points (app : FinanceApplication) :
  points (flags_rule app)
  = - (6 * Z.b2z (has_repo app) + 6 * Z.b2z (has_bankruptcy app)
       + 2 * Z.b2z (self_employed app) + Z.b2z (first_time_buyer app)).
Proof.
  unfold points, flags_rule.
  destruct (has_repo app), (has_bankruptcy app), (self_employed app),
    (first_time_buyer app); reflexivity.
Qed.

(** The state before the clamp: the running total and the notes of the
    seven rules in order. *)
Lemma apply_rules_sum (app : FinanceApplication) :
  apply_rules app
  = Ok (running_total app,
        (rule_notes (income_rule app) ++ rule_notes (pti_rule_of app)
         ++ rule_notes (job_rule app) ++ rule_notes (residence_rule app)
         ++ rule_notes (down_rule app) ++ rule_notes (flags_rule app)
         ++ rule_notes (stips_rule app))%list).
Proof.
  unfold apply_rules.
  destruct (compute_pti (net_monthly_income app) (desired_payment app))
    as [pti|] eqn:Hc; [|rewrite compute_pti_eq in Hc; discriminate Hc].
  cbn [bind].
  assert (Hp : forall st, pti_rule pti st = pti_rule_of app st).
  { intro st. unfold pti_rule_of. rewrite Hc. reflexivity. }
  rewrite Hp.
  rewrite (income_rule_additive app (50, [])).
  rewrite pti_rule_of_additive, job_rule_additive, residence_rule_additive,
    down_rule_additive, flags_rule_additive, stips_rule_additive.
  cbn [fst snd List.app]. unfold running_total. f_equal. f_equal.
  rewrite <- !app_assoc. reflexivity.
Qed.

Lemma score_application_sum (app : FinanceApplication) :
  exists tier dec notes,
    score_application app = Ok (clamp (running_total app), tier, dec, notes).
Proof.
  unfold score_application. rewrite apply_rules_sum. cbn [bind fst snd].
  destruct (tier_decision app (clamp (running_total app))) as [tier dec].
  eauto.
Qed.

Lemma score_of_sum (app : FinanceApplication) :
  score_of (score_application app) = clamp (running_total app).
Proof.
  destruct (score_application_sum app) as [t [d [n ->]]]. reflexivity.
Qed.

Lemma clamp_monotone (a b : Z) : a <= b -> clamp a <= clamp b.
Proof. unfold clamp. lia. Qed.

(** ** Range of the running total, and what moves it *)

Lemma income_points_range (app : FinanceApplication) :
  -10 <= points (income_rule app) <= 15.
Proof.
  unfold points, income_rule.
  repeat match goal with |- context [if ?b then _ else _] => destruct b end;
    cbn; lia.
Qed.

Lemma pti_points_range (pti : float) : -15 <= points (pti_rule pti) <= 15.
Proof.
  unfold points, pti_rule.
  repeat match goal with |- context [if ?b then _ else _] => destruct b end;
    cbn; lia.
Qed.

Lemma pti_of_points_range (app : FinanceApplication) :
  -15 <= points (pti_rule_of app) <= 15.
Proof.
  unfold points, pti_rule_of. rewrite compute_pti_eq. apply pti_points_range.
Qed.

Lemma job_points_cases (app : FinanceApplication) :
  points (job_rule app)
  = if job_time_months app >=? 24 then 10
    else if job_time_months app >=? 12 then 5 else -10.
Proof.
  unfold points, job_rule.
  repeat match goal with |- context [if ?b then _ else _] => destruct b end;
    reflexivity.
Qed.

Lemma residence_points_cases (app : FinanceApplication) :
  points (residence_rule app)
  = if residence_time_months app >=? 24 then 8
    else if residence_time_months app >=? 12 then 4 else -6.
Proof.
  unfold points, residence_rule.
  repeat match goal with |- context [if ?b then _ else _] => destruct b end;
    reflexivity.
Qed.

Lemma down_points_range (app : FinanceApplication) :
  -8 <= points (down_rule app) <= 10.
Proof.
  unfold points, down_rule.
  repeat match goal with |- context [if ?b then _ else _] => destruct b end;
    cbn; lia.
Qed.

Lemma running_total_range (app : FinanceApplication) :
  -26 <= running_total app <= 108.
Proof.
  unfold running_total.
  pose proof (income_points_range app).
  pose proof (pti_of_points_range app).
  pose proof (down_points_range app).
  rewrite job_points_cases, residence_points_cases, flags_rule_points.
  destruct (stips_rule_points app) as [_ ->].
  unfold count_missing.
  destruct (job_time_months app >=? 24), (job_time_months app >=? 12),
    (residence_time_months app >=? 24), (residence_time_months app >=? 12),
    (has_repo app), (has_bankruptcy app), (self_employed app),
    (first_time_buyer app), (dl_on_file app), (poi_on_file app),
    (por_on_file app), (references_on_file app); cbn [Z.b2z negb]; lia.
Qed.

(** X1: before the clamp the total of baseline and rules always lies
    between -26 and 108, and both ends are reached, so the clamp is what
    keeps the score inside 0..100 on either side. *)
Theorem running_total_bounds :
  (forall app : FinanceApplication,
      exists st, apply_rules app = Ok st /\ -26 <= fst st <= 108)
  /\ (exists notes, apply_rules worst_case = Ok (-26, notes))
  /\ (exists notes, apply_rules best_case = Ok (108, notes))
  /\ score_of (score_application worst_case) = 0
  /\ score_of (score_application best_case) = 100.
Proof.
  split; [|repeat split; try (eexists; vm_compute; reflexivity)].
  intro app. rewrite apply_rules_sum. eexists. split; [reflexivity|].
  cbn [fst]. apply running_total_range.
Qed.

(** X2: every rule is additive: applied to any running state it adds the
    same points and appends the same notes as on the empty state, so the
    returned score is the clamp of 50 plus the seven contributions and the
    explanation is the rules' notes in rule order. *)
Theorem score_is_clamped_sum (app : FinanceApplication) :
  (forall st : acc,
      income_rule app st
      = (fst st + points (income_rule app),
         (snd st ++ rule_notes (income_rule app))%list)
      /\ pti_rule_of app st
         = (fst st + points (pti_rule_of app),
            (snd st ++ rule_notes (pti_rule_of app))%list)
      /\ job_rule app st
         = (fst st + points (job_rule app),
            (snd st ++ rule_notes (job_rule app))%list)
      /\ residence_rule app st
         = (fst st + points (residence_rule app),
            (snd st ++ rule_notes (residence_rule app))%list)
      /\ down_rule app st
         = (fst st + points (down_rule app),
            (snd st ++ rule_notes (down_rule app))%list)
      /\ flags_rule app st
         = (fst st + points (flags_rule app),
            (snd st ++ rule_notes (flags_rule app))%list)
      /\ stips_rule app st
         = (fst st + points (stips_rule app),
            (snd st ++ rule_notes (stips_rule app))%list))
  /\ exists tier dec,
      score_application app
      = Ok (clamp (running_total app), tier, dec,
            join " "
              (rule_notes (income_rule app) ++ rule_notes (pti_rule_of app)
               ++ rule_notes (job_rule app) ++ rule_notes (residence_rule app)
               ++ rule_notes (down_rule app) ++ rule_notes (flags_rule app)
               ++ rule_notes (stips_rule app))%list).
Proof.
  split.
  - intro st. repeat split.
    + apply income_rule_additive.
    + apply pti_rule_of_additive.
    + apply job_rule_additive.
    + apply residence_rule_additive.
    + apply down_rule_additive.
    + apply flags_rule_additive.
    + apply stips_rule_additive.
  - unfold score_application. rewrite apply_rules_sum. cbn [bind fst snd].
    destruct (tier_decision app (clamp (running_total app))) as [tier dec].
    eauto.
Qed.

Lemma rule_notes_lengths (app : FinanceApplication) :
  List.length (rule_notes (income_rule app)) = 1%nat
  /\ List.length (rule_notes (pti_rule_of app)) = 1%nat
  /\ List.length (rule_notes (job_rule app)) = 1%nat
  /\ List.length (rule_notes (residence_rule app)) = 1%nat
  /\ List.length (rule_notes (down_rule app)) = 1%nat.
Proof.
  unfold rule_notes, pti_rule_of, income_rule, pti_rule, job_rule,
    residence_rule, down_rule.
  rewrite compute_pti_eq.
  repeat split;
    repeat match goal with |- context [if ?b then _ else _] => destruct b end;
    reflexivity.
Qed.

(** X3: the explanation is built from exactly five notes for the five
    graded rules, one more for each red flag that is set, and one more when
    any verification item is missing: between 5 and 10 notes. *)
Theorem explanation_note_count (app : FinanceApplication) :
  exists st,
    apply_rules app = Ok st
    /\ Z.of_nat (List.length (snd st))
       = 5 + Z.b2z (has_repo app) + Z.b2z (has_bankruptcy app)
         + Z.b2z (self_employed app) + Z.b2z (first_time_buyer app)
         + Z.b2z (0 <? count_missing app)
    /\ (5 <= List.length (snd st) <= 10)%nat.
Proof.
  rewrite apply_rules_sum. eexists. split; [reflexivity|]. cbn [snd].
  destruct (rule_notes_lengths app) as [H1 [H2 [H3 [H4 H5]]]].
  rewrite !length_app, H1, H2, H3, H4, H5.
  unfold rule_notes, flags_rule, stips_rule, missing_stips, count_missing.
  destruct (has_repo app), (has_bankruptcy app), (self_employed app),
    (first_time_buyer app), (dl_on_file app), (poi_on_file app),
    (por_on_file app), (references_on_file app); cbn; split; lia.
Qed.

(** ** Monotonicity in the flags and the tenures *)

Lemma clamp_step (a d : Z) : 0 <= d -> clamp a <= clamp (a + d) <= clamp a + d.
Proof. unfold clamp. lia. Qed.

(** Rules that do not read a changed field contribute the same points. *)
Ltac same_points a' a :=
  try change (points (income_rule a')) with (points (income_rule a));
  try change (points (pti_rule_of a')) with (points (pti_rule_of a));
  try change (points (job_rule a')) with (points (job_rule a));
  try change (points (residence_rule a')) with (points (residence_rule a));
  try change (points (down_rule a')) with (points (down_rule a));
  try change (points (flags_rule a')) with (points (flags_rule a));
  try change (points (stips_rule a')) with (points (stips_rule a)).

(** X4: putting a missing verification item on file adds exactly 3 to the
    running total, so the score never falls and rises by at most 3. *)
Theorem stip_on_file_raises_score (k : stip) (a : FinanceApplication) :
  stip_on_file k a = false ->
  running_total (put_on_file k a) = running_total a + 3
  /\ score_of (score_application a)
     <= score_of (score_application (put_on_file k a))
     <= score_of (score_application a) + 3.
Proof.
  intro Hoff.
  assert (Ht : running_total (put_on_file k a) = running_total a + 3).
  { unfold running_total.
    destruct (stips_rule_points a) as [_ ->].
    destruct (stips_rule_points (put_on_file k a)) as [_ ->].
    replace (count_missing (put_on_file k a)) with (count_missing a - 1).
    - same_points (put_on_file k a) a. lia.
    - unfold count_missing.
      destruct k; cbn [stip_on_file] in Hoff;
        cbn [put_on_file with_flags dl_on_file poi_on_file por_on_file
             references_on_file];
        rewrite Hoff; cbn [negb Z.b2z]; lia. }
  split; [exact Ht|].
  rewrite !score_of_sum, Ht. apply clamp_step. lia.
Qed.

(** An application with nothing on file; proof of income is put on file. *)
Lemma stip_on_file_raises_score_witness :
  stip_on_file StipPOI scenario2 = false
  /\ running_total (put_on_file StipPOI scenario2)
     = running_total scenario2 + 3.
Proof.
  assert (H : stip_on_file StipPOI scenario2 = false) by reflexivity.
  split; [exact H|].
  exact (proj1 (stip_on_file_raises_score StipPOI scenario2 H)).
Defined.

(** X5: raising a red flag that was not set subtracts exactly its weight
    (6 repo, 6 bankruptcy, 2 self-employed, 1 first-time buyer) from the
    running total, so the score never rises. *)
Theorem red_flag_lowers_score (k : red_flag) (a : FinanceApplication) :
  flagged k a = false ->
  running_total (raise_flag k a) = running_total a - flag_weight k
  /\ score_of (score_application (raise_flag k a))
     <= score_of (score_application a).
Proof.
  intro Hoff.
  assert (Ht : running_total (raise_flag k a) = running_total a - flag_weight k).
  { unfold running_total. rewrite !flags_rule_points.
    same_points (raise_flag k a) a.
    destruct k; cbn [flagged] in Hoff;
      cbn [raise_flag with_flags has_repo has_bankruptcy self_employed
           first_time_buyer flag_weight];
      rewrite Hoff; cbn [Z.b2z]; lia. }
  split; [exact Ht|].
  rewrite !score_of_sum, Ht. apply clamp_monotone.
  destruct k; cbn; lia.
Qed.

(** The first scenario has no red flag; a repossession is flagged. *)
Lemma red_flag_lowers_score_witness :
  flagged FlagRepo scenario1 = false
  /\ running_total (raise_flag FlagRepo scenario1)
     = running_total scenario1 - 6.
Proof.
  assert (H : flagged FlagRepo scenario1 = false) by reflexivity.
  split; [exact H|].
  exact (proj1 (red_flag_lowers_score FlagRepo scenario1 H)).
Defined.

(** X6: with every other input fixed, longer job and residence tenures
    never lower the running total or the score. *)
Theorem tenure_monotone (a : FinanceApplication) (job res : Z) :
  job_time_months a <= job ->
  residence_time_months a <= res ->
  running_total a <= running_total (with_tenure a job res)
  /\ score_of (score_application a)
     <= score_of (score_application (with_tenure a job res)).
Proof.
  intros Hj Hr.
  assert (Ht : running_total a <= running_total (with_tenure a job res)).
  { unfold running_total. rewrite !job_points_cases, !residence_points_cases.
    cbn [with_tenure job_time_months residence_time_months].
    same_points (with_tenure a job res) a.
    destruct (job_time_months a >=? 24) eqn:E1,
      (job_time_months a >=? 12) eqn:E2, (job >=? 24) eqn:E3,
      (job >=? 12) eqn:E4, (residence_time_months a >=? 24) eqn:E5,
      (residence_time_months a >=? 12) eqn:E6, (res >=? 24) eqn:E7,
      (res >=? 12) eqn:E8; lia. }
  split; [exact Ht|].
  rewrite !score_of_sum. apply clamp_monotone. exact Ht.
Qed.

(** The second scenario (6 months each) against 30 and 14 months. *)
Lemma tenure_monotone_witness :
  job_time_months scenario2 <= 30
  /\ residence_time_months scenario2 <= 14
  /\ running_total scenario2 <= running_total (with_tenure scenario2 30 14).
Proof.
  assert (Hj : job_time_months scenario2 <= 30) by (cbn; lia).
  assert (Hr : residence_time_months scenario2 <= 14) by (cbn; lia).
  split; [exact Hj | split; [exact Hr|]].
  exact (proj1 (tenure_monotone scenario2 30 14 Hj Hr)).
Defined.

(** ** Degenerate incomes and payments *)

Lemma nonpositive_branches (x : float) :
  le x (of_Z 0) = true ->
  ge x (of_Z 2500) = false /\ ge x (of_Z 2000) = false
  /\ ge x (of_Z 1500) = false.
Proof.
  rewrite of_Z_0, of_Z_1500, of_Z_2000, of_Z_2500. float_cases x.
Qed.

Lemma pti_rule_one : pti_rule lit_1_0 (0, []) = (-15, ["PTI high (100%)."]).
Proof. vm_compute. reflexivity. Qed.

Lemma pti_rule_nan : pti_rule S754_nan (0, []) = (-15, ["PTI high (nan%)."]).
Proof. vm_compute. reflexivity. Qed.

Lemma pti_rule_zero (s : bool) :
  pti_rule (S754_zero s) (0, [])
  = (15, ["PTI excellent (" ++ (if s then "-0%" else "0%") ++ ")."]).
Proof. destruct s; vm_compute; reflexivity. Qed.

(** No approval once the running total is at most 53. *)
Lemma low_total_not_approved (app : FinanceApplication) :
  running_total app <= 53 ->
  exists s tier dec notes,
    score_application app = Ok (s, tier, dec, notes)
    /\ s <= 53 /\ dec <> "Approve".
Proof.
  intro Hle. unfold score_application. rewrite apply_rules_sum.
  cbn [bind fst snd]. unfold tier_decision.
  assert (Hc : clamp (running_total app) <= 53) by (unfold clamp; lia).
  destruct (clamp (running_total app) >=? 80) eqn:E80; [lia|].
  destruct (clamp (running_total app) >=? 65) eqn:E65; [lia|].
  destruct (clamp (running_total app) >=? 50);
    [|destruct (lt (down_payment app) (of_Z 999))];
    eexists _, _, _, _; (split; [reflexivity | split; [exact Hc | discriminate]]).
Qed.

Lemma low_income_high_pti_total (app : FinanceApplication) :
  points (income_rule app) = -10 ->
  points (pti_rule_of app) = -15 ->
  running_total app <= 53.
Proof.
  intros Hi Hp.
  unfold running_total. rewrite Hi, Hp.
  pose proof (down_points_range app).
  rewrite job_points_cases, residence_points_cases, flags_rule_points.
  destruct (stips_rule_points app) as [_ ->]. unfold count_missing.
  destruct (job_time_months app >=? 24), (job_time_months app >=? 12),
    (residence_time_months app >=? 24), (residence_time_months app >=? 12),
    (has_repo app), (has_bankruptcy app), (self_employed app),
    (first_time_buyer app), (dl_on_file app), (poi_on_file app),
    (por_on_file app), (references_on_file app); cbn [Z.b2z negb]; lia.
Qed.

(** X7: a net income that is zero or negative is scored as the lowest
    income band (-10) with a PTI of 1.0, reported as "PTI high (100%)."
    (-15), whatever the desired payment; such an application scores at
    most 53 and is never approved. *)
Theorem nonpositive_income_never_approved (app : FinanceApplication) :
  le (net_monthly_income app) (of_Z 0) = true ->
  compute_pti (net_monthly_income app) (desired_payment app) = Ok lit_1_0
  /\ income_rule app (0, []) = (-10, ["Net income low (< $1,500)."])
  /\ pti_rule_of app (0, []) = (-15, ["PTI high (100%)."])
  /\ exists s tier dec notes,
      score_application app = Ok (s, tier, dec, notes)
      /\ s <= 53 /\ dec <> "Approve".
Proof.
  intro Hle.
  assert (Hc : compute_pti (net_monthly_income app) (desired_payment app)
               = Ok lit_1_0).
  { unfold compute_pti. rewrite Hle. reflexivity. }
  assert (Hi : income_rule app (0, []) = (-10, ["Net income low (< $1,500)."])).
  { unfold income_rule.
    destruct (nonpositive_branches _ Hle) as [-> [-> ->]]. reflexivity. }
  assert (Hp : pti_rule_of app (0, []) = (-15, ["PTI high (100%)."])).
  { unfold pti_rule_of. rewrite Hc. exact pti_rule_one. }
  repeat (split; [assumption|]).
  apply low_total_not_approved, low_income_high_pti_total.
  - unfold points. rewrite Hi. reflexivity.
  - unfold points. rewrite Hp. reflexivity.
Qed.

(** The worst case has a net income of zero. *)
Lemma nonpositive_income_never_approved_witness :
  le (net_monthly_income worst_case) (of_Z 0) = true
  /\ pti_rule_of worst_case (0, []) = (-15, ["PTI high (100%)."]).
Proof.
  assert (H : le (net_monthly_income worst_case) (of_Z 0) = true)
    by reflexivity.
  split; [exact H|].
  exact (proj1 (proj2 (proj2 (nonpositive_income_never_approved worst_case H)))).
Defined.

(** X8: a NaN net income fails every comparison: it is scored as the
    lowest income band, the ratio is NaN and falls through to "PTI high
    (nan%).", and the application is never approved. *)
Theorem nan_income_never_approved (app : FinanceApplication) :
  net_monthly_income app = S754_nan ->
  compute_pti (net_monthly_income app) (desired_payment app) = Ok S754_nan
  /\ income_rule app (0, []) = (-10, ["Net income low (< $1,500)."])
  /\ pti_rule_of app (0, []) = (-15, ["PTI high (nan%)."])
  /\ exists s tier dec notes,
      score_application app = Ok (s, tier, dec, notes)
      /\ s <= 53 /\ dec <> "Approve".
Proof.
  intro Hnan.
  assert (Hc : compute_pti (net_monthly_income app) (desired_payment app)
               = Ok S754_nan).
  { rewrite Hnan. destruct (desired_payment app); reflexivity. }
  assert (Hi : income_rule app (0, []) = (-10, ["Net income low (< $1,500)."])).
  { unfold income_rule. rewrite Hnan. reflexivity. }
  assert (Hp : pti_rule_of app (0, []) = (-15, ["PTI high (nan%)."])).
  { unfold pti_rule_of. rewrite Hc. exact pti_rule_nan. }
  repeat (split; [assumption|]).
  apply low_total_not_approved, low_income_high_pti_total.
  - unfold points. rewrite Hi. reflexivity.
  - unfold points. rewrite Hp. reflexivity.
Qed.

(** The best case with its net income replaced by NaN. *)
Lemma nan_income_never_approved_witness :
  let app := set_net_monthly_income best_case S754_nan in
  net_monthly_income app = S754_nan
  /\ pti_rule_of app (0, []) = (-15, ["PTI high (nan%)."]).
Proof.
  assert (H : net_monthly_income (set_net_monthly_income best_case S754_nan)
              = S754_nan) by reflexivity.
  split; [exact H|].
  exact (proj1 (proj2 (proj2 (nan_income_never_approved _ H)))).
Defined.

(** X9: with a positive net income (infinite included) and a desired
    payment that is a zero of either sign, the ratio is a zero of the
    payment's sign and the PTI rule gives its best band, reported as "PTI
    excellent (0%)." for a payment of 0.0 and as "PTI excellent (-0%)."
    for a payment of -0.0. *)
Theorem zero_payment_excellent (app : FinanceApplication) (s : bool) :
  gt (net_monthly_income app) (of_Z 0) = true ->
  desired_payment app = S754_zero s ->
  compute_pti (net_monthly_income app) (desired_payment app)
  = Ok (S754_zero s)
  /\ pti_rule_of app (0, [])
     = (15, ["PTI excellent (" ++ (if s then "-0%" else "0%") ++ ")."]).
Proof.
  intros Hpos Hzero.
  assert (Hc : compute_pti (net_monthly_income app) (desired_payment app)
               = Ok (S754_zero s)).
  { rewrite Hzero. revert Hpos.
    destruct (net_monthly_income app) as [[]|[]| |[] m e];
      try discriminate; destruct s; reflexivity. }
  split; [exact Hc|].
  unfold pti_rule_of. rewrite Hc. apply pti_rule_zero.
Qed.

(** The best case asking for a payment of -0.0. *)
Lemma zero_payment_excellent_witness :
  let app :=
    mkApp None 1 (of_Z 4000) (of_Z 3000) 36 None "weekly" 36 (of_Z 700)
          (of_Z 0) (S754_zero true) (of_Z 2000) false false false false
          true true true true 0 "Unknown" "Review" "" in
  gt (net_monthly_income app) (of_Z 0) = true
  /\ desired_payment app = S754_zero true
  /\ pti_rule_of app (0, []) = (15, ["PTI excellent (-0%)."]).
Proof.
  intro app.
  assert (H1 : gt (net_monthly_income app) (of_Z 0) = true) by reflexivity.
  assert (H2 : desired_payment app = S754_zero true) by reflexivity.
  split; [exact H1 | split; [exact H2|]].
  exact (proj2 (zero_payment_excellent app true H1 H2)).
Defined.

(** ** Stripping *)

Lemma lstrip_starts_clean (s : string) : starts_clean (lstrip s).
Proof.
  induction s as [|c s IH]; [exact I|].
  cbn [lstrip]. destruct (isspace c) eqn:Hc; [exact IH | exact Hc].
Qed.

Lemma lstrip_clean (s : string) : starts_clean s -> lstrip s = s.
Proof.
  destruct s as [|c s]; [reflexivity|].
  cbn [starts_clean lstrip]. intros ->. reflexivity.
Qed.

Lemma rstrip_starts_clean (s : string) :
  starts_clean s -> starts_clean (rstrip s).
Proof.
  destruct s as [|c s]; [exact (fun H => H)|].
  cbn [starts_clean rstrip]. intro Hc.
  destruct (rstrip s); [rewrite Hc|]; exact Hc.
Qed.

Lemma rstrip_ends_clean (s : string) : ends_clean (rstrip s).
Proof.
  induction s as [|c s IH]; [exact I|].
  cbn [rstrip]. destruct (rstrip s) as [|d r] eqn:Hr.
  - destruct (isspace c) eqn:Hc; [exact I | exact Hc].
  - exact IH.
Qed.

Lemma rstrip_clean (s : string) : ends_clean s -> rstrip s = s.
Proof.
  induction s as [|c s IH]; [reflexivity|].
  cbn [ends_clean rstrip]. destruct s as [|d s'].
  - cbn [rstrip]. intros ->. reflexivity.
  - intro H. rewrite (IH H). reflexivity.
Qed.

Lemma strip_clean (s : string) : starts_clean s -> ends_clean s -> trimmed s.
Proof.
  intros Hs He. unfold trimmed, strip.
  rewrite (lstrip_clean s Hs). apply rstrip_clean, He.
Qed.

Lemma strip_starts_clean (s : string) : starts_clean (strip s).
Proof. apply rstrip_starts_clean, lstrip_starts_clean. Qed.

Lemma strip_ends_clean (s : string) : ends_clean (strip s).
Proof. apply rstrip_ends_clean. Qed.

Lemma strip_trimmed (s : string) : trimmed (strip s).
Proof. apply strip_clean; [apply strip_starts_clean | apply strip_ends_clean]. Qed.

Lemma trimmed_clean (s : string) : trimmed s -> starts_clean s /\ ends_clean s.
Proof.
  unfold trimmed. intro H. rewrite <- H.
  split; [apply strip_starts_clean | apply strip_ends_clean].
Qed.

Lemma safe_str_trimmed (x : cell) : trimmed (safe_str x).
Proof. destruct x; [reflexivity | apply strip_trimmed]. Qed.

Lemma or_else_trimmed (a b : string) :
  trimmed a -> trimmed b -> trimmed (or_else a b).
Proof. unfold or_else. destruct (truthy a); auto. Qed.

(** X10: [strip] removes every leading and trailing whitespace character
    and nothing else happens on a second pass: its result neither starts
    nor ends with whitespace, stripping it again changes nothing, and a
    text is left unchanged exactly when it has no whitespace at either
    end; the same holds for what [safe_str] returns. *)
Theorem strip_idempotent :
  (forall s : string,
      starts_clean (strip s) /\ ends_clean (strip s)
      /\ strip (strip s) = strip s)
  /\ (forall s : string, strip s = s <-> starts_clean s /\ ends_clean s)
  /\ (forall x : cell,
         starts_clean (safe_str x) /\ ends_clean (safe_str x)
         /\ safe_str (Val (safe_str x)) = safe_str x).
Proof.
  split; [|split].
  - intro s. split; [apply strip_starts_clean|].
    split; [apply strip_ends_clean | apply strip_trimmed].
  - intro s. split; [apply trimmed_clean|].
    intros [Hs He]. apply strip_clean; assumption.
  - intro x. destruct (trimmed_clean _ (safe_str_trimmed x)) as [Hs He].
    split; [exact Hs | split; [exact He | apply safe_str_trimmed]].
Qed.

Lemma import_row_trimmed (r : row) :
  Forall trimmed (text_columns (import_row r)).
Proof.
  assert (Hw : trimmed "Warm") by reflexivity.
  unfold import_row.
  match goal with |- context [if ?b then _ else _] => destruct b end;
    unfold text_columns;
    cbn [set_status first_name last_name phone phone2 email address1 address2
         city state zip source status assigned_to];
    repeat (apply Forall_cons;
            [first [apply safe_str_trimmed | exact Hw
                   | apply or_else_trimmed; [apply safe_str_trimmed | exact Hw]]
            |]);
    apply Forall_nil.
Qed.

Lemma import_fold_stored (now : Z) (df : list row) :
  forall (db : Db) (n : Z),
  exists stored,
    leads (fst (fold_left (import_step now) df (db, n)))
    = (leads db ++ stored)%list
    /\ map unkeyed stored = map import_row df.
Proof.
  induction df as [|r df IH]; intros db n.
  - exists []. cbn. rewrite app_nil_r. split; reflexivity.
  - cbn [fold_left].
    change (import_step now (db, n) r)
      with (fst (db_add_lead now db (import_row r)), n + 1).
    destruct (IH (fst (db_add_lead now db (import_row r))) (n + 1))
      as [stored [H1 H2]].
    exists (snd (db_add_lead now db (import_row r)) :: stored).
    split.
    + rewrite H1. cbn [db_add_lead fst snd leads].
      rewrite <- app_assoc. reflexivity.
    + cbn [map]. rewrite H2. f_equal.
      cbn [db_add_lead snd]. apply import_row_unkeyed.
Qed.

Lemma import_leads_stored (now : Z) (db : Db) (df : list row) :
  exists stored,
    leads (fst (import_leads now db df)) = (leads db ++ stored)%list
    /\ map unkeyed stored = map import_row df.
Proof.
  unfold import_leads.
  destruct (import_fold_stored now df db 0) as [stored H].
  destruct (fold_left (import_step now) df (db, 0)) as [db' n].
  exists stored. exact H.
Qed.

Lemma skipn_app_exact {A : Type} (l1 l2 : list A) :
  skipn (List.length l1) (l1 ++ l2) = l2.
Proof. induction l1 as [|x l1 IH]; [reflexivity | exact IH]. Qed.

Lemma unkeyed_Forall (P : Lead -> Prop) (stored : list Lead) (df : list row) :
  (forall l, P (unkeyed l) -> P l) ->
  (forall r, P (import_row r)) ->
  map unkeyed stored = map import_row df ->
  Forall P stored.
Proof.
  intros Hu Hr. revert df.
  induction stored as [|l stored IH]; intros [|r df] Heq;
    try discriminate Heq; constructor.
  - cbn [map] in Heq. injection Heq as Hh Ht.
    apply Hu. rewrite Hh. apply Hr.
  - cbn [map] in Heq. injection Heq as Hh Ht. exact (IH df Ht).
Qed.

(** X11: every text column of a lead stored by the import is trimmed: no
    column starts or ends with whitespace, whatever the cells held. *)
Theorem import_columns_trimmed (now : Z) (db : Db) (df : list row) :
  Forall (fun l => Forall trimmed (text_columns l))
         (skipn (List.length (leads db)) (leads (fst (import_leads now db df)))).
Proof.
  destruct (import_leads_stored now db df) as [stored [H1 H2]].
  rewrite H1, skipn_app_exact.
  apply (unkeyed_Forall _ stored df); try assumption.
  - intros l H. exact H.
  - exact import_row_trimmed.
Qed.

(** ** Names *)

Lemma rstrip_app_space (a : string) (c : ascii) :
  isspace c = true -> rstrip (a ++ String c "") = rstrip a.
Proof.
  intro Hc. induction a as [|d a IH].
  - cbn. rewrite Hc. reflexivity.
  - cbn [append rstrip]. rewrite IH. reflexivity.
Qed.

Lemma rstrip_app_clean (x b : string) :
  b <> "" -> ends_clean b -> rstrip (x ++ b) = x ++ b.
Proof.
  intros Hne He. induction x as [|d x IH].
  - apply rstrip_clean, He.
  - cbn [append rstrip]. rewrite IH.
    destruct (x ++ b) as [|e r] eqn:Hxb; [|reflexivity].
    destruct x; [cbn in Hxb; contradiction | discriminate Hxb].
Qed.

Lemma full_name_cases (first last : string) :
  trimmed first -> trimmed last ->
  strip (first ++ " " ++ last)
  = if truthy last
    then if truthy first then first ++ " " ++ last else last
    else first.
Proof.
  intros Hf Hl.
  destruct (trimmed_clean _ Hf) as [Hfs Hfe].
  destruct (trimmed_clean _ Hl) as [Hls Hle].
  destruct first as [|c a], last as [|d b]; cbn [truthy].
  - reflexivity.
  - exact Hl.
  - change (" " ++ "") with " ".
    unfold strip. rewrite lstrip_clean by exact Hfs.
    rewrite rstrip_app_space by reflexivity.
    apply rstrip_clean, Hfe.
  - unfold strip. rewrite lstrip_clean by exact Hfs.
    apply rstrip_app_clean; [discriminate | exact Hle].
Qed.

(** X12: for a lead whose names are trimmed, [full_name] is the last name
    alone when there is no first name, the first name alone when there is
    no last name, and the two joined by one space otherwise: never a
    dangling space. *)
Theorem full_name_joined (l : Lead) :
  trimmed (first_name l) ->
  trimmed (last_name l) ->
  full_name l
  = if truthy (last_name l)
    then if truthy (first_name l)
         then first_name l ++ " " ++ last_name l
         else last_name l
    else first_name l.
Proof. intros Hf Hl. apply full_name_cases; assumption. Qed.

(** A lead imported with a first name only. *)
Lemma full_name_joined_witness :
  let l := import_row [("first_name", Val " Ann "); ("last_name", NA)] in
  trimmed (first_name l) /\ trimmed (last_name l) /\ full_name l = "Ann".
Proof.
  intro l.
  assert (Hf : trimmed (first_name l)) by reflexivity.
  assert (Hl : trimmed (last_name l)) by reflexivity.
  split; [exact Hf | split; [exact Hl|]].
  exact (full_name_joined l Hf Hl).
Defined.

(** X13: "Save Lead" tests the raw name fields but stores the stripped
    ones: a form whose first name is non-empty yet only whitespace, with a
    last name that is blank after stripping, passes the check and stores a
    lead with both names empty, announced with an empty display name. *)
Theorem create_lead_whitespace_name (now : Z) (db : Db) (f : LeadForm) :
  truthy (f_first_name f) = true ->
  strip (f_first_name f) = "" ->
  strip (f_last_name f) = "" ->
  exists l,
    create_lead now db f
    = (mkDb (leads db ++ [l]) (tags db) (apps db) (next_lead_id db + 1)
            (next_tag_id db) (next_app_id db),
       Success ("Created lead #" ++ str_of_Z (next_lead_id db) ++ ": "))
    /\ first_name l = "" /\ last_name l = "" /\ full_name l = ""
    /\ lead_id l = Some (next_lead_id db).
Proof.
  intros Ht Hf Hl. unfold create_lead. rewrite Ht. cbn [negb andb].
  cbn [db_add_lead]. rewrite Hf, Hl. eexists. split; [reflexivity|].
  repeat split.
Qed.

(** A form with a single space as first name. *)
Lemma create_lead_whitespace_name_witness :
  let f := mkLeadForm " " "" "Warm" "" "" "" "" "" "" "" "" "" in
  truthy (f_first_name f) = true
  /\ strip (f_first_name f) = ""
  /\ strip (f_last_name f) = ""
  /\ List.length (leads (fst (create_lead 0 empty_db f))) = 1%nat.
Proof.
  intro f.
  assert (H1 : truthy (f_first_name f) = true) by reflexivity.
  assert (H2 : strip (f_first_name f) = "") by reflexivity.
  assert (H3 : strip (f_last_name f) = "") by reflexivity.
  split; [exact H1 | split; [exact H2 | split; [exact H3|]]].
  destruct (create_lead_whitespace_name 0 empty_db f H1 H2 H3) as [l [Heq _]].
  rewrite Heq. reflexivity.
Defined.

(** ** Store invariants *)

Lemma import_row_status_valid (r : row) : In (status (import_row r)) HOT_WARM_COLD.
Proof. rewrite import_row_status. apply coerce_status_valid. Qed.

Lemma create_lead_leads (now : Z) (db : Db) (f : LeadForm) :
  leads (fst (create_lead now db f)) = leads db
  \/ exists l,
      leads (fst (create_lead now db f)) = (leads db ++ [l])%list
      /\ status l = f_status f
      /\ lead_id l = Some (next_lead_id db)
      /\ next_lead_id (fst (create_lead now db f)) = next_lead_id db + 1.
Proof.
  unfold create_lead.
  destruct (negb (truthy (f_first_name f)) && negb (truthy (f_last_name f))).
  - left. reflexivity.
  - right. cbn [db_add_lead fst leads]. eexists. split; [reflexivity|].
    repeat split.
Qed.

(** X14: the three-status invariant is kept by every handler that writes
    leads: an import keeps it whatever the rows hold, and "Save Lead"
    keeps it when the status comes from the status box. *)
Theorem statuses_stay_valid (db : Db) :
  statuses_valid db ->
  (forall (now : Z) (df : list row),
      statuses_valid (fst (import_leads now db df)))
  /\ (forall (now : Z) (f : LeadForm),
         In (f_status f) HOT_WARM_COLD ->
         statuses_valid (fst (create_lead now db f))).
Proof.
  intro Hv. unfold statuses_valid in *. split.
  - intros now df.
    destruct (import_leads_stored now db df) as [stored [H1 H2]].
    rewrite H1. apply Forall_app. split; [exact Hv|].
    apply (unkeyed_Forall _ stored df); try assumption.
    + intros l H. exact H.
    + exact import_row_status_valid.
  - intros now f Hf.
    destruct (create_lead_leads now db f) as [-> | [l [-> [Hs _]]]];
      [exact Hv|].
    apply Forall_app. split; [exact Hv|].
    constructor; [rewrite Hs; exact Hf | constructor].
Qed.

(** An import of two rows into the empty store. *)
Lemma statuses_stay_valid_witness :
  statuses_valid empty_db
  /\ statuses_valid (fst (import_leads 0 empty_db [padded_row; blank_row])).
Proof.
  assert (H : statuses_valid empty_db) by constructor.
  split; [exact H|].
  exact (proj1 (statuses_stay_valid empty_db H) 0 [padded_row; blank_row]).
Defined.

Lemma count_status_sum (ls : list Lead) :
  Forall (fun l => In (status l) HOT_WARM_COLD) ls ->
  Z.of_nat (List.length ls)
  = count_status "Hot" ls + count_status "Warm" ls + count_status "Cold" ls.
Proof.
  induction 1 as [|l ls Hl _ IH]; [reflexivity|].
  cbn [List.length count_status fold_right]. fold (count_status "Hot" ls).
  fold (count_status "Warm" ls). fold (count_status "Cold" ls).
  rewrite Nat2Z.inj_succ, IH.
  destruct Hl as [<- | [<- | [<- | []]]];
    repeat match goal with
           | |- context [String.eqb ?a ?b] =>
               let v := eval vm_compute in (String.eqb a b) in
               change (String.eqb a b) with v
           end;
    cbn iota; lia.
Qed.

(** X15: when every lead has one of the three statuses, the Dashboard's
    Hot, Warm and Cold counts add up to Total Leads; in particular they
    still do after any import. *)
Theorem dashboard_counts_add_up (db : Db) :
  statuses_valid db ->
  (let '(total, hot, warm, cold) := dashboard_metrics db in
   total = hot + warm + cold)
  /\ forall (now : Z) (df : list row),
      let '(total, hot, warm, cold) :=
        dashboard_metrics (fst (import_leads now db df)) in
      total = hot + warm + cold
      /\ total = Z.of_nat (List.length (leads db)) + Z.of_nat (List.length df).
Proof.
  intro Hv. split.
  - unfold dashboard_metrics. apply count_status_sum. exact Hv.
  - intros now df. unfold dashboard_metrics. split.
    + apply count_status_sum.
      destruct (import_leads_stored now db df) as [stored [H1 H2]].
      rewrite H1. apply Forall_app. split; [exact Hv|].
      apply (unkeyed_Forall _ stored df); try assumption.
      * intros l H. exact H.
      * exact import_row_status_valid.
    + destruct (import_leads_rows now db df) as [H _].
      apply (f_equal (@List.length Lead)) in H.
      rewrite length_app, !length_map in H. lia.
Qed.

(** The Dashboard after importing three rows into the empty store. *)
Lemma dashboard_counts_add_up_witness :
  statuses_valid empty_db
  /\ let '(total, hot, warm, cold) :=
       dashboard_metrics
         (fst (import_leads 0 empty_db
                 [padded_row; blank_row; [("status", Val "Cold")]])) in
     total = hot + warm + cold
     /\ total = Z.of_nat (List.length (leads empty_db)) + Z.of_nat 3.
Proof.
  assert (H : statuses_valid empty_db) by constructor.
  split; [exact H|].
  exact (proj2 (dashboard_counts_add_up empty_db H) 0
           [padded_row; blank_row; [("status", Val "Cold")]]).
Defined.

Lemma list_index_In (x : string) (l : list string) :
  In x l -> exists i, list_index x l = Some i /\ nth_error l i = Some x.
Proof.
  induction l as [|y l IH]; [intros []|].
  intro Hin. cbn [list_index].
  destruct (String.eqb y x) eqn:E.
  - apply String.eqb_eq in E. subst. exists 0%nat. split; reflexivity.
  - destruct Hin as [-> | Hin]; [rewrite String.eqb_refl in E; discriminate E|].
    destruct (IH Hin) as [i [Hi Hn]]. exists (S i). rewrite Hi.
    split; [reflexivity | exact Hn].
Qed.

Lemma list_index_not_In (x : string) (l : list string) :
  ~ In x l -> list_index x l = None.
Proof.
  induction l as [|y l IH]; [reflexivity|].
  intro Hn. cbn [list_index].
  destruct (String.eqb y x) eqn:E.
  - apply String.eqb_eq in E. subst. exfalso. apply Hn. left. reflexivity.
  - rewrite IH; [reflexivity|]. intro H. apply Hn. right. exact H.
Qed.

(** X16: the Lead Detail page looks the stored status up in
    [HOT_WARM_COLD]; the lookup succeeds and points back at the status for
    a lead with one of the three statuses, hence for every lead an import
    stores, and it fails (ValueError) for a non-empty status outside the
    list. *)
Theorem status_index_defined :
  (forall l : Lead,
      In (status l) HOT_WARM_COLD ->
      exists i, status_index l = Some i
                /\ nth_error HOT_WARM_COLD i = Some (status l))
  /\ (forall r : row, status_index (import_row r) <> None)
  /\ (forall l : Lead,
         truthy (status l) = true ->
         ~ In (status l) HOT_WARM_COLD ->
         status_index l = None).
Proof.
  assert (Hin : forall l : Lead,
             In (status l) HOT_WARM_COLD ->
             exists i, status_index l = Some i
                       /\ nth_error HOT_WARM_COLD i = Some (status l)).
  { intros l Hl. unfold status_index.
    replace (or_else (status l) "Warm") with (status l).
    - apply list_index_In. exact Hl.
    - destruct Hl as [<- | [<- | [<- | []]]]; reflexivity. }
  split; [exact Hin | split].
  - intro r. destruct (Hin _ (import_row_status_valid r)) as [i [-> _]].
    discriminate.
  - intros l Ht Hout. unfold status_index, or_else. rewrite Ht.
    apply list_index_not_In. exact Hout.
Qed.

(** ** Primary keys *)

Lemma db_add_lead_keys (now : Z) (db : Db) (l : Lead) :
  keys_fresh db -> keys_fresh (fst (db_add_lead now db l)).
Proof.
  intros [Hb Hnd]. unfold keys_fresh. cbn [db_add_lead fst leads next_lead_id].
  split.
  - apply Forall_app. split.
    + eapply Forall_impl; [|exact Hb].
      intros x [i [Hi Hlt]]. exists i. split; [exact Hi | lia].
    + constructor; [|constructor].
      exists (next_lead_id db). cbn [lead_id]. split; [reflexivity | lia].
  - rewrite map_app. cbn [map lead_id].
    apply NoDup_app; [exact Hnd | repeat constructor; intros [] |].
    intros k Hk [<- | []].
    apply in_map_iff in Hk. destruct Hk as [x [Hx Hin]].
    rewrite Forall_forall in Hb. destruct (Hb x Hin) as [i [Hi Hlt]].
    rewrite Hi in Hx. injection Hx as Hx. lia.
Qed.

Lemma import_fold_keys (now : Z) (df : list row) :
  forall (db : Db) (n : Z),
    keys_fresh db ->
    keys_fresh (fst (fold_left (import_step now) df (db, n))).
Proof.
  induction df as [|r df IH]; intros db n Hk; [exact Hk|].
  cbn [fold_left].
  change (import_step now (db, n) r)
    with (fst (db_add_lead now db (import_row r)), n + 1).
  apply IH, db_add_lead_keys, Hk.
Qed.

(** X17: primary keys stay unique: if every stored lead has a key below
    the counter and no key occurs twice, the same holds after an import of
    any table and after "Save Lead" with any form. *)
Theorem lead_keys_stay_fresh (db : Db) :
  keys_fresh db ->
  (forall (now : Z) (df : list row),
      keys_fresh (fst (import_leads now db df)))
  /\ (forall (now : Z) (f : LeadForm),
         keys_fresh (fst (create_lead now db f))).
Proof.
  intro Hk. split.
  - intros now df. unfold import_leads.
    pose proof (import_fold_keys now df db 0 Hk) as H.
    destruct (fold_left (import_step now) df (db, 0)) as [db' n]. exact H.
  - intros now f. unfold create_lead.
    destruct (negb (truthy (f_first_name f)) && negb (truthy (f_last_name f)));
      [exact Hk|].
    match goal with
    | |- context [db_add_lead now db ?l] =>
        pose proof (db_add_lead_keys now db l Hk) as H;
        destruct (db_add_lead now db l) as [db' l']
    end.
    exact H.
Qed.

(** Two rows imported into the empty store receive the keys 1 and 2. *)
Lemma lead_keys_stay_fresh_witness :
  keys_fresh empty_db
  /\ keys_fresh (fst (import_leads 0 empty_db [padded_row; blank_row]))
  /\ map lead_id (leads (fst (import_leads 0 empty_db [padded_row; blank_row])))
     = [Some 1; Some 2].
Proof.
  assert (H : keys_fresh empty_db) by (split; constructor).
  split; [exact H | split; [|reflexivity]].
  exact (proj1 (lead_keys_stay_fresh empty_db H) 0 [padded_row; blank_row]).
Defined.

(** ** Tags of other leads *)

Lemma lead_tags_clear_other (db : Db) (lid other : Z) :
  other <> lid -> lead_tags (clear_tags db lid) other = lead_tags db other.
Proof.
  intro Hne. unfold lead_tags, clear_tags. cbn [tags].
  induction (tags db) as [|t l IH]; [reflexivity|].
  cbn [filter]. destruct (owned_by lid t) eqn:Ho; cbn [negb filter].
  - assert (owned_by other t = false) as ->; [|exact IH].
    unfold owned_by in *. destruct (tag_lead_id t); [|reflexivity].
    apply Z.eqb_eq in Ho. apply Z.eqb_neq. lia.
  - rewrite IH. reflexivity.
Qed.

Lemma lead_tags_append_other (lid other : Z) (ts : list string) :
  other <> lid ->
  forall db : Db,
    lead_tags (fold_left (append_tag lid) ts db) other = lead_tags db other.
Proof.
  intro Hne. induction ts as [|t ts IH]; intro db; [reflexivity|].
  cbn [fold_left]. rewrite IH. unfold lead_tags, append_tag. cbn [tags].
  rewrite filter_app. cbn [filter owned_by tag_lead_id].
  assert ((lid =? other) = false) as -> by (apply Z.eqb_neq; lia).
  apply app_nil_r.
Qed.

Lemma append_tags_leads_apps (lid : Z) (ts : list string) :
  forall db : Db,
    leads (fold_left (append_tag lid) ts db) = leads db
    /\ apps (fold_left (append_tag lid) ts db) = apps db.
Proof.
  induction ts as [|t ts IH]; intro db; [split; reflexivity|].
  cbn [fold_left]. destruct (IH (append_tag lid db t)) as [-> ->].
  split; reflexivity.
Qed.

(** X18: "Update Tags" for one lead leaves the tag rows of every other
    lead exactly as they were, and touches neither leads nor finance
    applications. *)
Theorem update_tags_frame (db : Db) (lid other : Z) (new_tags : list string) :
  other <> lid ->
  lead_tags (fst (update_tags db lid new_tags)) other = lead_tags db other
  /\ leads (fst (update_tags db lid new_tags)) = leads db
  /\ apps (fst (update_tags db lid new_tags)) = apps db.
Proof.
  intro Hne. unfold update_tags. cbn [fst]. split.
  - rewrite lead_tags_append_other by exact Hne.
    apply lead_tags_clear_other. exact Hne.
  - destruct (append_tags_leads_apps lid new_tags (clear_tags db lid))
      as [-> ->].
    split; reflexivity.
Qed.

(** Lead 2 keeps its tag while the tags of lead 1 are replaced. *)
Lemma update_tags_frame_witness :
  let db := fst (update_tags (fst (update_tags empty_db 2 ["Repo"])) 1
                             ["Bankruptcy"]) in
  2 <> 1
  /\ lead_tags (fst (update_tags db 1 ["Need Stips"])) 2 = lead_tags db 2.
Proof.
  intro db.
  assert (H : 2 <> 1) by lia.
  split; [exact H|].
  exact (proj1 (update_tags_frame db 1 2 ["Need Stips"] H)).
Defined.

(** ** Sorted tag sets *)

Lemma insert_sorted_In (x y : string) (l : list string) :
  In y (insert_sorted x l) <-> y = x \/ In y l.
Proof.
  induction l as [|z l IH]; cbn [insert_sorted].
  - cbn. intuition.
  - destruct (String.leb x z); cbn [In]; [intuition|].
    rewrite IH. intuition.
Qed.

Lemma isort_In (y : string) (l : list string) : In y (isort l) <-> In y l.
Proof.
  induction l as [|x l IH]; [reflexivity|].
  cbn [isort In]. rewrite insert_sorted_In, IH. intuition.
Qed.

Lemma insert_sorted_NoDup (x : string) (l : list string) :
  NoDup l -> ~ In x l -> NoDup (insert_sorted x l).
Proof.
  induction l as [|z l IH]; intros Hnd Hx; cbn [insert_sorted].
  - constructor; [exact Hx | constructor].
  - destruct (String.leb x z); [constructor; assumption|].
    apply NoDup_cons_iff in Hnd. destruct Hnd as [Hz Hnd].
    constructor.
    + rewrite insert_sorted_In. intros [-> | H]; [|contradiction].
      apply Hx. left. reflexivity.
    + apply IH; [exact Hnd|]. intro H. apply Hx. right. exact H.
Qed.

Lemma isort_NoDup (l : list string) : NoDup l -> NoDup (isort l).
Proof.
  induction 1 as [|x l Hx Hnd IH]; [constructor|].
  cbn [isort]. apply insert_sorted_NoDup; [exact IH|].
  rewrite isort_In. exact Hx.
Qed.

Lemma insert_sorted_increasing (x : string) (l : list string) :
  increasing l -> increasing (insert_sorted x l).
Proof.
  unfold increasing. induction l as [|z l IH]; intro Hs; cbn [insert_sorted].
  - repeat constructor.
  - destruct (String.leb x z) eqn:E.
    + constructor; [exact Hs | constructor; exact E].
    + inversion Hs as [|? ? Hs' Hhd]; subst.
      constructor; [apply IH; exact Hs'|].
      assert (Hzx : String.leb z x = true).
      { destruct (String.leb_total x z) as [H | H]; [congruence | exact H]. }
      destruct l as [|w l]; cbn [insert_sorted].
      * constructor. exact Hzx.
      * destruct (String.leb x w); constructor; [exact Hzx|].
        inversion Hhd; subst. assumption.
Qed.

Lemma isort_increasing (l : list string) : increasing (isort l).
Proof.
  induction l as [|x l IH]; [constructor|].
  cbn [isort]. apply insert_sorted_increasing, IH.
Qed.

Lemma isort_fixed (l : list string) : increasing l -> isort l = l.
Proof.
  unfold increasing. induction 1 as [|x l Hs IH Hhd]; [reflexivity|].
  cbn [isort]. rewrite IH.
  destruct Hhd as [|y l' Hxy]; cbn [insert_sorted]; [reflexivity|].
  rewrite Hxy. reflexivity.
Qed.

Lemma sorted_set_NoDup (l : list string) : NoDup (sorted_set l).
Proof. apply isort_NoDup, NoDup_nodup. Qed.

Lemma sorted_set_In (x : string) (l : list string) :
  In x (sorted_set l) <-> In x l.
Proof. unfold sorted_set. rewrite isort_In. apply nodup_In. Qed.

Lemma sorted_set_fixed (l : list string) :
  sorted_set (sorted_set l) = sorted_set l.
Proof.
  unfold sorted_set at 1.
  rewrite nodup_fixed_point by apply sorted_set_NoDup.
  apply isort_fixed, isort_increasing.
Qed.

(** [sorted(set(l))] has exactly the elements of [l], each once, in
    increasing order, and applying it twice is the same as once. *)
Lemma sorted_set_canonical (l : list string) :
  NoDup (sorted_set l)
  /\ (forall x : string, In x (sorted_set l) <-> In x l)
  /\ increasing (sorted_set l)
  /\ sorted_set (sorted_set l) = sorted_set l.
Proof.
  split; [apply sorted_set_NoDup|].
  split; [intro x; apply sorted_set_In|].
  split; [apply isort_increasing | apply sorted_set_fixed].
Qed.

(** X19: on the Lead Detail page the preselected tags are among the
    options of the tag box, and so is every default tag; pressing "Update
    Tags" with the preselection untouched stores each former tag name
    once, which removes duplicates and changes neither the preselection
    nor the "Tags" cell shown for the lead. *)
Theorem update_tags_unchanged_selection (db : Db) (lid : Z) :
  let sel := existing_tags db lid in
  let db' := fst (update_tags db lid sel) in
  incl sel (tag_options db lid)
  /\ incl DEFAULT_TAGS (tag_options db lid)
  /\ tag_names db' lid = sel
  /\ NoDup (tag_names db' lid)
  /\ (forall x : string, In x (tag_names db' lid) <-> In x (tag_names db lid))
  /\ existing_tags db' lid = sel
  /\ tags_cell db' lid = tags_cell db lid.
Proof.
  intros sel db'.
  assert (Hn : tag_names db' lid = sel) by apply update_tags_names.
  split; [|split; [|split; [exact Hn | split; [|split; [|split]]]]].
  - intros x Hx. unfold tag_options. apply sorted_set_In.
    apply in_or_app. right. exact Hx.
  - intros x Hx. unfold tag_options. apply sorted_set_In.
    apply in_or_app. left. exact Hx.
  - rewrite Hn. apply sorted_set_NoDup.
  - intro x. rewrite Hn. apply sorted_set_In.
  - unfold existing_tags at 1. rewrite Hn. apply sorted_set_fixed.
  - unfold tags_cell. rewrite Hn. unfold sel, existing_tags.
    rewrite sorted_set_fixed. reflexivity.
Qed.

Example sorted_set_sample :
  sorted_set ["Repo"; "Need Stips"; "Bankruptcy"; "Repo"; "repo"]
  = ["Bankruptcy"; "Need Stips"; "Repo"; "repo"].
Proof. reflexivity. Qed.

(** ** Notes *)

(** X20: "Save Note" tests the stripped body: a body that is blank after
    stripping is refused and nothing is written; any other body is stored
    stripped, as one new note for that lead with the next key.  So the
    table never holds a note with an empty or untrimmed body. *)
Theorem add_note_keeps_bodies_filled
  (now : Z) (nt : NoteTable) (lid : Z) (note_body author : string) :
  bodies_filled nt ->
  bodies_filled (fst (add_note now nt lid note_body author))
  /\ if truthy (strip note_body)
     then exists n,
         notes (fst (add_note now nt lid note_body author))
         = (notes nt ++ [n])%list
         /\ body n = strip note_body
         /\ note_lead_id n = lid
         /\ note_id n = next_note_id nt
         /\ snd (add_note now nt lid note_body author) = Success "Note saved."
     else add_note now nt lid note_body author
          = (nt, Error "Note can't be empty.").
Proof.
  intro Hb. unfold add_note.
  destruct (truthy (strip note_body)) eqn:Ht; cbn [negb fst snd].
  - split.
    + unfold bodies_filled. cbn [notes]. apply Forall_app.
      split; [exact Hb|].
      constructor; [|constructor]. cbn [body].
      split; [exact Ht | apply strip_trimmed].
    + eexists. cbn [notes]. split; [reflexivity|]. repeat split.
  - split; [exact Hb | reflexivity].
Qed.

(** A padded body is stored stripped; a body of spaces is refused. *)
Lemma add_note_keeps_bodies_filled_witness :
  let nt := mkNoteTable [] 1 in
  bodies_filled nt
  /\ bodies_filled (fst (add_note 5 nt 1 " called back " ""))
  /\ map body (notes (fst (add_note 5 nt 1 " called back " "")))
     = ["called back"]
  /\ add_note 5 nt 1 "   " "Al" = (nt, Error "Note can't be empty.").
Proof.
  intro nt.
  assert (H : bodies_filled nt) by constructor.
  split; [exact H | split; [|split; reflexivity]].
  exact (proj1 (add_note_keeps_bodies_filled 5 nt 1 " called back " "" H)).
Defined.

(** ** Stored finance applications *)

(** X21: the result depends on thirteen fields only (net income, desired
    payment, down payment, the two tenures and the eight flags): two
    applications that agree on them get the same score, tier, decision and
    explanation, whatever their keys, gross income, employer, pay
    frequency, rent, other debt and stored result. *)
Theorem score_reads_scoring_inputs (a b : FinanceApplication) :
  scoring_inputs a = scoring_inputs b ->
  score_application a = score_application b.
Proof.
  destruct a, b. unfold scoring_inputs.
  cbn [net_monthly_income desired_payment down_payment job_time_months
       residence_time_months has_repo has_bankruptcy self_employed
       first_time_buyer dl_on_file poi_on_file por_on_file
       references_on_file].
  intro H. injection H as -> -> -> -> -> -> -> -> -> -> -> -> ->.
  reflexivity.
Qed.

(** The second scenario against a copy with other money fields and a
    stored result. *)
Lemma score_reads_scoring_inputs_witness :
  let b := with_unscored scenario2 (Some 9) 4 (of_Z 9000) (of_Z 1) (of_Z 2)
                         (Some "Acme") "monthly" 77 "A" "Approve" "old" in
  scoring_inputs scenario2 = scoring_inputs b
  /\ score_application scenario2 = score_application b.
Proof.
  intro b.
  assert (H : scoring_inputs scenario2 = scoring_inputs b) by reflexivity.
  split; [exact H|].
  exact (score_reads_scoring_inputs scenario2 b H).
Defined.

Lemma score_application_valid (a : FinanceApplication) :
  exists s tier dec notes,
    score_application a = Ok (s, tier, dec, notes)
    /\ 0 <= s <= 100
    /\ In tier ["A"; "B"; "C"; "D"]
    /\ In dec ["Approve"; "Counter"; "Review"; "Decline"].
Proof.
  destruct (score_application_row a) as [s [notes [r [Heq [_ Hs]]]]].
  exists s, (row_tier r), (row_decision r (down_payment a)), notes.
  split; [exact Heq | split; [exact Hs|]].
  destruct r; cbn [row_tier row_decision];
    try destruct (lt (down_payment a) (of_Z 999)); cbn; auto 8.
Qed.

(** X22: "Save Finance Application" always succeeds and appends exactly
    one application, for that lead and with the next key, leaving leads
    and tags alone; its stored result satisfies the data-model constraints
    (score in 0..100, tier A-D or Unknown, one of the four decisions), and
    when scoring was run, scoring the stored row again returns exactly the
    stored result. *)
Theorem create_app_stores_valid_result (db : Db) (lid : Z) (f : AppForm) :
  exists db' msg a,
    create_app db lid f = Ok (db', msg)
    /\ apps db' = (apps db ++ [a])%list
    /\ leads db' = leads db /\ tags db' = tags db
    /\ next_app_id db' = next_app_id db + 1
    /\ app_id a = Some (next_app_id db) /\ app_lead_id a = lid
    /\ result_valid a
    /\ lead_apps db' lid = (lead_apps db lid ++ [a])%list
    /\ if f_run_score f
       then score_application a
            = Ok (score a, risk_tier a, decision a, scoring_notes a)
       else (score a, risk_tier a, decision a, scoring_notes a)
            = (0, "Unknown", "Review", "").
Proof.
  unfold create_app.
  destruct (f_run_score f) eqn:Hrun.
  - match goal with
    | |- context [score_application ?x] =>
        destruct (score_application_valid x)
          as [s [tier [dec [notes [Heq [Hs [Ht Hd]]]]]]];
        rewrite Heq; set (app0 := x) in *
    end.
    cbn [bind set_result db_add_app].
    eexists _, _, _. split; [reflexivity|].
    cbn [apps leads tags next_app_id app_id app_lead_id].
    repeat (split; [reflexivity|]).
    split; [|split].
    + unfold result_valid. cbn [score risk_tier decision].
      split; [exact Hs | split; [|exact Hd]].
      cbn in Ht |- *. intuition.
    + unfold lead_apps. cbn [apps]. rewrite filter_app.
      cbn [filter app_lead_id]. rewrite Z.eqb_refl. reflexivity.
    + cbn [score risk_tier decision scoring_notes]. rewrite <- Heq.
      reflexivity.
  - cbn [bind db_add_app].
    eexists _, _, _. split; [reflexivity|].
    cbn [apps leads tags next_app_id app_id app_lead_id].
    repeat (split; [reflexivity|]).
    split; [|split].
    + unfold result_valid. cbn. intuition lia.
    + unfold lead_apps. cbn [apps]. rewrite filter_app.
      cbn [filter app_lead_id]. rewrite Z.eqb_refl. reflexivity.
    + reflexivity.
Qed.

(** ** Import: keys and columns *)

Lemma import_fold_frame (now : Z) (df : list row) :
  forall (db : Db) (n : Z),
  exists stored,
    fst (fold_left (import_step now) df (db, n))
    = mkDb (leads db ++ stored) (tags db) (apps db)
           (next_lead_id db + Z.of_nat (List.length df))
           (next_tag_id db) (next_app_id db)
    /\ map lead_id stored = keys_from (next_lead_id db) (List.length df).
Proof.
  induction df as [|r df IH]; intros db n.
  - exists []. cbn [fold_left fst List.length Z.of_nat map keys_from].
    rewrite app_nil_r, Z.add_0_r. destruct db. split; reflexivity.
  - cbn [fold_left].
    change (import_step now (db, n) r)
      with (fst (db_add_lead now db (import_row r)), n + 1).
    destruct (IH (fst (db_add_lead now db (import_row r))) (n + 1))
      as [stored [H1 H2]].
    exists (snd (db_add_lead now db (import_row r)) :: stored).
    rewrite H1. cbn [db_add_lead fst snd leads tags apps next_lead_id
                     next_tag_id next_app_id] in *.
    split.
    + rewrite <- app_assoc. cbn [List.app List.length].
      f_equal. rewrite Nat2Z.inj_succ. lia.
    + cbn [map lead_id List.length keys_from]. rewrite H2. reflexivity.
Qed.

(** X23: an import changes nothing but the leads table and its counter:
    the leads already stored stay in place, tags and applications are
    untouched, and the new rows receive consecutive keys from the counter
    in row order.  An empty table stores nothing and reports zero
    leads. *)
Theorem import_leads_frame (now : Z) (db : Db) (df : list row) :
  (exists stored,
      fst (import_leads now db df)
      = mkDb (leads db ++ stored) (tags db) (apps db)
             (next_lead_id db + Z.of_nat (List.length df))
             (next_tag_id db) (next_app_id db)
      /\ map lead_id stored = keys_from (next_lead_id db) (List.length df))
  /\ import_leads now db [] = (db, Success "Imported 0 leads.").
Proof.
  split.
  - unfold import_leads.
    destruct (import_fold_frame now df db 0) as [stored H].
    destruct (fold_left (import_step now) df (db, 0)) as [db' n].
    exists stored. exact H.
  - reflexivity.
Qed.

Lemma row_get_skip (k key default : string) (v : cell) (r : row) :
  k <> key -> row_get ((k, v) :: r) key default = row_get r key default.
Proof.
  intro Hne. cbn [row_get].
  destruct (String.eqb k key) eqn:E; [|reflexivity].
  apply String.eqb_eq in E. contradiction.
Qed.

(** X24: a column the import does not know is ignored: adding a cell
    under any name outside the thirteen recognised ones, anywhere in a
    row, gives the same lead. *)
Theorem import_ignores_unknown_column
  (before after : row) (k : string) (v : cell) :
  ~ In k recognized_columns ->
  import_row (List.app before ((k, v) :: after))
  = import_row (List.app before after).
Proof.
  intro Hk.
  assert (Hget : forall key default,
             In key recognized_columns ->
             row_get (List.app before ((k, v) :: after)) key default
             = row_get (List.app before after) key default).
  { intros key default Hin.
    induction before as [|[k' v'] before IH].
    - apply row_get_skip. intros ->. contradiction.
    - cbn [List.app row_get]. rewrite IH. reflexivity. }
  unfold import_row.
  rewrite !Hget by (cbn; auto 20). reflexivity.
Qed.

(** A row with a column named "notes" between two known columns. *)
Lemma import_ignores_unknown_column_witness :
  ~ In "notes" recognized_columns
  /\ import_row (List.app [("first_name", Val "Ann")]
                          (("notes", Val "vip") :: [("status", Val "Hot")]))
     = import_row (List.app [("first_name", Val "Ann")]
                            [("status", Val "Hot")]).
Proof.
  assert (H : ~ In "notes" recognized_columns).
  { cbn. intros Hin.
    repeat (destruct Hin as [Hin | Hin]; [discriminate Hin|]). exact Hin. }
  split; [exact H|].
  exact (import_ignores_unknown_column [("first_name", Val "Ann")]
           [("status", Val "Hot")] "notes" (Val "vip") H).
Defined.

(** ** Note list *)

Lemma insert_desc_In (x n : Note) (l : list Note) :
  In x (insert_desc n l) <-> x = n \/ In x l.
Proof.
  induction l as [|m l IH]; cbn [insert_desc].
  - cbn. intuition.
  - destruct (note_created_at n <? note_created_at m); cbn [In];
      [rewrite IH|]; intuition.
Qed.

Lemma order_desc_In (x : Note) (l : list Note) :
  In x (order_desc l) <-> In x l.
Proof.
  induction l as [|n l IH]; [reflexivity|].
  cbn [order_desc In]. rewrite insert_desc_In, IH. intuition.
Qed.

Lemma insert_desc_length (n : Note) (l : list Note) :
  List.length (insert_desc n l) = S (List.length l).
Proof.
  induction l as [|m l IH]; [reflexivity|].
  cbn [insert_desc]. destruct (note_created_at n <? note_created_at m);
    cbn [List.length]; [rewrite IH|]; reflexivity.
Qed.

Lemma order_desc_length (l : list Note) :
  List.length (order_desc l) = List.length l.
Proof.
  induction l as [|n l IH]; [reflexivity|].
  cbn [order_desc List.length]. rewrite insert_desc_length, IH. reflexivity.
Qed.

Lemma insert_desc_newest_first (n : Note) (l : list Note) :
  newest_first l -> newest_first (insert_desc n l).
Proof.
  unfold newest_first. induction l as [|m l IH]; intro Hs; cbn [insert_desc].
  - repeat constructor.
  - destruct (note_created_at n <? note_created_at m) eqn:E.
    + inversion Hs as [|? ? Hs' Hhd]; subst.
      constructor; [apply IH; exact Hs'|].
      apply Z.ltb_lt in E.
      destruct l as [|w l]; cbn [insert_desc].
      * constructor. lia.
      * inversion Hhd; subst.
        destruct (note_created_at n <? note_created_at w); constructor;
          [assumption | lia].
    + apply Z.ltb_ge in E. constructor; [exact Hs | constructor; exact E].
Qed.

Lemma order_desc_newest_first (l : list Note) : newest_first (order_desc l).
Proof.
  induction l as [|n l IH]; [constructor|].
  cbn [order_desc]. apply insert_desc_newest_first, IH.
Qed.

Lemma firstn_newest_first (k : nat) (l : list Note) :
  newest_first l -> newest_first (firstn k l).
Proof.
  unfold newest_first. revert k.
  induction l as [|n l IH]; intros k Hs; [rewrite firstn_nil; constructor|].
  destruct k as [|k]; [constructor|].
  cbn [firstn]. inversion Hs as [|? ? Hs' Hhd]; subst.
  constructor; [apply IH; exact Hs'|].
  destruct Hhd as [|m l' Hm]; [rewrite firstn_nil; constructor|].
  destruct k; cbn [firstn]; constructor. exact Hm.
Qed.

Lemma firstn_In {A : Type} (k : nat) (l : list A) (x : A) :
  In x (firstn k l) -> In x l.
Proof.
  revert k. induction l as [|y l IH]; intros k H.
  - rewrite firstn_nil in H. exact H.
  - destruct k; [destruct H|]. cbn [firstn] in H.
    destruct H as [-> | H]; [left; reflexivity | right; exact (IH k H)].
Qed.

(** X25: the Lead Detail page lists at most 20 notes: the listed notes
    are stored notes of that lead, newest first, as many as the lead has
    up to 20, and when the lead has no more than 20 notes every one of
    them is listed. *)
Theorem recent_notes_listing (nt : NoteTable) (lid : Z) :
  List.length (recent_notes nt lid)
  = Nat.min 20 (List.length (notes_of nt lid))
  /\ Forall (fun n => In n (notes nt) /\ note_lead_id n = lid)
            (recent_notes nt lid)
  /\ newest_first (recent_notes nt lid)
  /\ ((List.length (notes_of nt lid) <= 20)%nat ->
      forall n, In n (notes_of nt lid) <-> In n (recent_notes nt lid)).
Proof.
  unfold recent_notes. split; [|split; [|split]].
  - rewrite length_firstn, order_desc_length. reflexivity.
  - apply Forall_forall. intros n Hn.
    apply firstn_In in Hn. apply (proj1 (order_desc_In _ _)) in Hn.
    unfold notes_of in Hn. apply filter_In in Hn. destruct Hn as [Hin Hl].
    split; [exact Hin | apply Z.eqb_eq; exact Hl].
  - apply firstn_newest_first, order_desc_newest_first.
  - intros Hlen n.
    rewrite firstn_all2 by (rewrite order_desc_length; exact Hlen).
    symmetry. apply order_desc_In.
Qed.

Example recent_notes_sample :
  map body
    (recent_notes
       (mkNoteTable [mkNote 1 7 10 "first" None; mkNote 2 8 11 "other" None;
                     mkNote 3 7 12 "third" None; mkNote 4 7 12 "fourth" None]
                    5) 7)
  = ["third"; "fourth"; "first"].
Proof. reflexivity. Qed.
